(** * valutatrade_hub.core.models: User, Wallet and Portfolio

    A shallow embedding of [src/valutatrade_hub/core/models.py] and the
    properties of its three entities.

    Python objects are mutable and methods raise exceptions, so a method is a
    function from the receiver's state to an outcome together with the state
    the receiver is left in: a raised exception keeps every mutation made
    before the [raise].  Numbers follow Python: [int] is [Z], [float] is
    IEEE-754 binary64 ([spec_float] at precision 53), [decimal.Decimal] is a
    coefficient and a power of ten under the default context (28 digits,
    half-even). *)

From Stdlib Require Import ZArith QArith List String Ascii Bool Lia.
From Stdlib Require Import SpecFloat.
Import ListNotations.
Open Scope Z_scope.
Open Scope list_scope.

Set Implicit Arguments.

(** * Python runtime: strings, exceptions, outcomes *)

Module Py.

(** A Python [str] is a sequence of code points; lone surrogates
    (U+D800..U+DFFF) are legal in a [str]. *)
Definition pystr : Type := list N.

(** A literal of the source, given here by its UTF-8 bytes. *)
Fixpoint decode (fuel : nat) (bs : list N) : pystr :=
  match fuel, bs with
  | S fuel', b0 :: rest =>
      (if b0 <? 128 then b0 :: decode fuel' rest
       else if b0 <? 224 then
         match rest with
         | b1 :: r => ((b0 - 192) * 64 + (b1 - 128)) :: decode fuel' r
         | _ => [b0]
         end
       else if b0 <? 240 then
         match rest with
         | b1 :: b2 :: r =>
             ((b0 - 224) * 4096 + (b1 - 128) * 64 + (b2 - 128)) :: decode fuel' r
         | _ => b0 :: decode fuel' rest
         end
       else
         match rest with
         | b1 :: b2 :: b3 :: r =>
             ((b0 - 240) * 262144 + (b1 - 128) * 4096 + (b2 - 128) * 64 + (b3 - 128))
               :: decode fuel' r
         | _ => b0 :: decode fuel' rest
         end)%N
  | _, _ => []
  end.

Definition py (s : string) : pystr :=
  let bs := List.map N_of_ascii (list_ascii_of_string s) in
  decode (List.length bs) bs.

Definition pystr_eqb (a b : pystr) : bool :=
  if list_eq_dec N.eq_dec a b then true else false.

(** The exception classes these methods can raise.  [ValueError] carries the
    message of its [raise] statement.  [UnicodeEncodeError] is a subclass of
    [ValueError]; [InvalidOperation] and [DecimalOverflow] are
    [decimal.InvalidOperation] and [decimal.Overflow], subclasses of
    [ArithmeticError] and of neither [ValueError] nor [TypeError]. *)
Inductive exn : Type :=
  | ValueError (msg : pystr)
  | TypeError
  | KeyError
  | AttributeError
  | NameError
  | OverflowError
  | ZeroDivisionError
  | UnicodeEncodeError
  | InvalidOperation
  | DecimalOverflow.

(** What [except ValueError] catches: the spec's validation error. *)
Definition is_ValueError (e : exn) : bool :=
  match e with
  | ValueError _ | UnicodeEncodeError => true
  | _ => false
  end.

(** What [except TypeError] catches. *)
Definition is_TypeError (e : exn) : bool :=
  match e with
  | TypeError => true
  | _ => false
  end.

Inductive res (A : Type) : Type :=
  | Ok (a : A)
  | Raise (e : exn).
Arguments Ok {A} a.
Arguments Raise {A} e.

Definition rbind {A B} (r : res A) (k : A -> res B) : res B :=
  match r with
  | Ok a => k a
  | Raise e => Raise e
  end.

(** A method on a receiver of type [S]: the outcome, and the receiver as the
    call leaves it, also when it raises. *)
Definition M (S A : Type) : Type := S -> res A * S.

Definition ret {S A} (a : A) : M S A := fun s => (Ok a, s).
Definition raise {S A} (e : exn) : M S A := fun s => (Raise e, s).
Definition bind {S A B} (m : M S A) (k : A -> M S B) : M S B :=
  fun s => match m s with
           | (Ok a, s') => k a s'
           | (Raise e, s') => (Raise e, s')
           end.
Definition get {S} : M S S := fun s => (Ok s, s).
Definition put {S} (s : S) : M S unit := fun _ => (Ok tt, s).
(** An expression that may raise but touches no state. *)
Definition lift {S A} (r : res A) : M S A := fun s => (r, s).

End Py.
Export Py.

Declare Scope py_scope.
Delimit Scope py_scope with py.
Notation "x <- m ;; k" := (bind m (fun x => k))
  (at level 61, m at next level, right associativity) : py_scope.
Notation "m ;;; k" := (bind m (fun _ => k))
  (at level 61, right associativity) : py_scope.
Notation "x <~ r ;; k" := (rbind r (fun x => k))
  (at level 61, r at next level, right associativity) : py_scope.
Open Scope py_scope.

(** * [str.encode('utf-8')] *)

Module Utf8.

Definition byte_of_N (n : N) : Byte.byte := byte_of_ascii (ascii_of_N n).

(** One code point.  The strict error handler of [encode] refuses
    surrogates. *)
Definition encode_cp (c : N) : res (list Byte.byte) :=
  (if c <? 128 then Ok [byte_of_N c]
   else if c <? 2048 then
     Ok [byte_of_N (192 + N.shiftr c 6); byte_of_N (128 + N.land c 63)]
   else if c <? 65536 then
     if (55296 <=? c) && (c <=? 57343) then Raise UnicodeEncodeError
     else Ok [byte_of_N (224 + N.shiftr c 12);
              byte_of_N (128 + N.land (N.shiftr c 6) 63);
              byte_of_N (128 + N.land c 63)]
   else if c <? 1114112 then
     Ok [byte_of_N (240 + N.shiftr c 18);
         byte_of_N (128 + N.land (N.shiftr c 12) 63);
         byte_of_N (128 + N.land (N.shiftr c 6) 63);
         byte_of_N (128 + N.land c 63)]
   else Raise UnicodeEncodeError)%N.

Fixpoint encode (s : pystr) : res (list Byte.byte) :=
  match s with
  | [] => Ok []
  | c :: s' =>
      b <~ encode_cp c ;;
      bs <~ encode s' ;;
      Ok (b ++ bs)
  end.

Definition surrogate (c : N) : bool := ((55296 <=? c) && (c <=? 57343))%N.

(** A string [encode] accepts: code points below 0x110000, no surrogate. *)
Definition encodable (s : pystr) : bool :=
  forallb (fun c => (c <? 1114112)%N && negb (surrogate c)) s.

End Utf8.

(** * [hashlib.sha256] (FIPS 180-4), on 32-bit words held in [Z] *)

Module SHA256.

Definition w32 (x : Z) : Z := x mod 4294967296.
Definition add32 (x y : Z) : Z := w32 (x + y).
Definition rotr (n x : Z) : Z :=
  w32 (Z.lor (Z.shiftr x n) (Z.shiftl x (32 - n))).
Definition not32 (x : Z) : Z := Z.lxor x 4294967295.

Definition Ch (x y z : Z) : Z := Z.lxor (Z.land x y) (Z.land (not32 x) z).
Definition Maj (x y z : Z) : Z :=
  Z.lxor (Z.lxor (Z.land x y) (Z.land x z)) (Z.land y z).
Definition Sigma0 (x : Z) : Z := Z.lxor (Z.lxor (rotr 2 x) (rotr 13 x)) (rotr 22 x).
Definition Sigma1 (x : Z) : Z := Z.lxor (Z.lxor (rotr 6 x) (rotr 11 x)) (rotr 25 x).
Definition sigma0 (x : Z) : Z := Z.lxor (Z.lxor (rotr 7 x) (rotr 18 x)) (Z.shiftr x 3).
Definition sigma1 (x : Z) : Z := Z.lxor (Z.lxor (rotr 17 x) (rotr 19 x)) (Z.shiftr x 10).

(** The round constants, in decimal. *)
Definition K : list Z :=
  [1116352408; 1899447441; 3049323471; 3921009573; 961987163; 1508970993;
   2453635748; 2870763221; 3624381080; 310598401; 607225278; 1426881987;
   1925078388; 2162078206; 2614888103; 3248222580; 3835390401; 4022224774;
   264347078; 604807628; 770255983; 1249150122; 1555081692; 1996064986;
   2554220882; 2821834349; 2952996808; 3210313671; 3336571891; 3584528711;
   113926993; 338241895; 666307205; 773529912; 1294757372; 1396182291;
   1695183700; 1986661051; 2177026350; 2456956037; 2730485921; 2820302411;
   3259730800; 3345764771; 3516065817; 3600352804; 4094571909; 275423344;
   430227734; 506948616; 659060556; 883997877; 958139571; 1322822218;
   1537002063; 1747873779; 1955562222; 2024104815; 2227730452; 2361852424;
   2428436474; 2756734187; 3204031479; 3329325298].

(** FIPS 180-4 defines them: the first 32 bits of the fractional part of
    the cube root of each of the first 64 primes, and for the initial hash
    value of the square root of each of the first 8. *)
Definition is_prime (n : Z) : bool :=
  (1 <? n) && forallb (fun d => negb (n mod Z.of_nat d =? 0)) (seq 2 (Z.to_nat n - 2)).

Definition primes_below (n : nat) : list Z :=
  List.filter is_prime (List.map Z.of_nat (seq 0 n)).

(** The integer cube root of [x] below [2^bits], bit by bit. *)
Fixpoint cube_root (bits : nat) (x acc : Z) : Z :=
  match bits with
  | O => acc
  | S b =>
      let c := acc + 2 ^ Z.of_nat b in
      cube_root b x (if c * c * c <=? x then c else acc)
  end.

Definition frac_cube_root (p : Z) : Z := cube_root 40 (p * 2 ^ 96) 0 mod 2 ^ 32.
Definition frac_square_root (p : Z) : Z := Z.sqrt (p * 2 ^ 64) mod 2 ^ 32.

Definition Z_of_byte (b : Byte.byte) : Z := Z.of_N (Byte.to_N b).

(** Padding: the byte 0x80, zeros up to 56 modulo 64, then the bit length as
    a 64-bit big-endian integer. *)
Fixpoint be_bytes (n : nat) (x : Z) : list Z :=
  match n with
  | O => []
  | S n' => Z.shiftr x (8 * Z.of_nat n') mod 256 :: be_bytes n' x
  end.

Definition pad (msg : list Z) : list Z :=
  let len := Z.of_nat (List.length msg) in
  let zeros := Z.to_nat ((55 - len) mod 64) in
  msg ++ [128] ++ repeat 0 zeros ++ be_bytes 8 (8 * len).

Fixpoint words (fuel : nat) (bs : list Z) : list Z :=
  match fuel, bs with
  | S f, b0 :: b1 :: b2 :: b3 :: rest =>
      (b0 * 16777216 + b1 * 65536 + b2 * 256 + b3) :: words f rest
  | _, _ => []
  end.

Fixpoint blocks (fuel : nat) (ws : list Z) : list (list Z) :=
  match fuel, ws with
  | S f, _ :: _ => firstn 16 ws :: blocks f (skipn 16 ws)
  | _, _ => []
  end.

(** Message schedule, most recent word first: [W_t] from [W_(t-2)],
    [W_(t-7)], [W_(t-15)], [W_(t-16)]. *)
Fixpoint schedule (n : nat) (recent : list Z) : list Z :=
  match n with
  | O => recent
  | S n' =>
      let w := add32 (add32 (sigma1 (nth 1 recent 0)) (nth 6 recent 0))
                     (add32 (sigma0 (nth 14 recent 0)) (nth 15 recent 0)) in
      schedule n' (w :: recent)
  end.

Record regs : Type := mkRegs { ra : Z; rb : Z; rc : Z; rd : Z; re : Z; rf : Z; rg : Z; rh : Z }.

Definition round (r : regs) (kw : Z * Z) : regs :=
  let '(k, w) := kw in
  let t1 := add32 (add32 (add32 (rh r) (Sigma1 (re r))) (add32 (Ch (re r) (rf r) (rg r)) k)) w in
  let t2 := add32 (Sigma0 (ra r)) (Maj (ra r) (rb r) (rc r)) in
  mkRegs (add32 t1 t2) (ra r) (rb r) (rc r) (add32 (rd r) t1) (re r) (rf r) (rg r).

Definition compress (h : regs) (block : list Z) : regs :=
  let w := rev (schedule 48 (rev block)) in
  let r := fold_left round (combine K w) h in
  mkRegs (add32 (ra h) (ra r)) (add32 (rb h) (rb r)) (add32 (rc h) (rc r))
         (add32 (rd h) (rd r)) (add32 (re h) (re r)) (add32 (rf h) (rf r))
         (add32 (rg h) (rg r)) (add32 (rh h) (rh r)).

Definition init : regs :=
  mkRegs 1779033703 3144134277 1013904242 2773480762
         1359893119 2600822924 528734635 1541459225.

Definition digest (msg : list Byte.byte) : regs :=
  let bs := pad (List.map Z_of_byte msg) in
  let ws := words (List.length bs) bs in
  fold_left compress (blocks (List.length ws) ws) init.

(** [hexdigest()]: 64 lowercase hexadecimal digits. *)
Definition hexdigit (x : Z) : N :=
  if x <? 10 then Z.to_N (48 + x) else Z.to_N (87 + x).

Fixpoint hexword (n : nat) (x : Z) : pystr :=
  match n with
  | O => []
  | S n' => hexdigit (Z.shiftr x (4 * Z.of_nat n') mod 16) :: hexword n' x
  end.

Definition hexdigest (msg : list Byte.byte) : pystr :=
  let r := digest msg in
  List.concat (List.map (hexword 8)
    [ra r; rb r; rc r; rd r; re r; rf r; rg r; rh r]).

End SHA256.

(** * Exact values: rationals with the two infinities

    Python compares an [int], a [float] and a [Decimal] by their exact
    values. *)

Module Ext.

Inductive ext : Type :=
  | NegInf
  | Fin (q : Q)
  | PosInf.

Definition compare (a b : ext) : comparison :=
  match a, b with
  | NegInf, NegInf => Eq
  | NegInf, _ => Lt
  | _, NegInf => Gt
  | PosInf, PosInf => Eq
  | PosInf, _ => Gt
  | _, PosInf => Lt
  | Fin x, Fin y => Qcompare x y
  end.

Definition ltb (a b : ext) : bool :=
  match compare a b with Lt => true | _ => false end.
Definition leb (a b : ext) : bool :=
  match compare a b with Gt => false | _ => true end.

Definition zero : ext := Fin 0.

(** [m * base^e] *)
Definition scaled (m base e : Z) : Q :=
  if 0 <=? e then Qmake (m * base ^ e) 1
  else Qmake m (Z.to_pos (base ^ (- e))).

End Ext.

(** * Python [float]: IEEE 754 binary64 *)

Module PyFloat.

Definition prec : Z := 53.
Definition emax : Z := 1024.

Definition mul (x y : spec_float) : spec_float := SFmul prec emax x y.
Definition add (x y : spec_float) : spec_float := SFadd prec emax x y.

(** [x / y]: Python raises on a zero divisor where IEEE 754 gives an
    infinity or a NaN. *)
Definition div (x y : spec_float) : res spec_float :=
  match y with
  | S754_zero _ => Raise ZeroDivisionError
  | _ => Ok (SFdiv prec emax x y)
  end.

(** [float(z)] of an [int]: the nearest double, ties to even. *)
Definition of_int (z : Z) : res spec_float :=
  match binary_normalize prec emax z 0 false with
  | S754_infinity _ => Raise OverflowError
  | f => Ok f
  end.

(** The nearest double to [num / den], ties to even: what a literal such as
    [1.1] (11 over 10) denotes.  Numerator and denominator are small enough
    to be doubles themselves, so one correctly rounded division gives it. *)
Definition literal (num : Z) (den : positive) : spec_float :=
  SFdiv prec emax (binary_normalize prec emax num 0 false)
                  (binary_normalize prec emax (Zpos den) 0 false).

Definition zero : spec_float := S754_zero false.

(** The exact value; [nan] has none. *)
Definition exact (f : spec_float) : option Ext.ext :=
  match f with
  | S754_zero _ => Some Ext.zero
  | S754_infinity s => Some (if s then Ext.NegInf else Ext.PosInf)
  | S754_nan => None
  | S754_finite s m e =>
      Some (Ext.Fin (Ext.scaled (if s then Zneg m else Zpos m) 2 e))
  end.

(** *** [repr(x)]: the shortest digits that read back as [x] *)

(** The reals that round to the positive double [m * 2^e] lie between the
    midpoints to its two neighbours; the lower neighbour is half as far when
    [m] is a power of two.  All three numbers over a common denominator
    [den]: [(low, v, high, den)]. *)
Definition interval (m : positive) (e : Z) : Z * Z * Z * Z :=
  let m := Zpos m in
  let closer := (m =? 2 ^ (prec - 1)) && (3 - emax - prec <? e) in
  let low := if closer then 4 * m - 1 else 4 * m - 2 in
  let e' := e - 2 in
  if 0 <=? e' then
    (low * 2 ^ e', 4 * m * 2 ^ e', (4 * m + 2) * 2 ^ e', 1)
  else (low, 4 * m, 4 * m + 2, 2 ^ (- e')).

(** [x * 10^k] against [n / den], both sides scaled to integers *)
Definition cmp10 (x k n den : Z) : comparison :=
  if 0 <=? k then Z.compare (x * 10 ^ k * den) n
  else Z.compare (x * den) (n * 10 ^ (- k)).

(** The decimal exponent [p] of the leading digit: [10^p <= v < 10^(p+1)]. *)
Definition decimal_exponent (m : positive) (e : Z) (v den : Z) : Z :=
  let p := ((e + Zpos (digits2_pos m) - 1) * 30103) / 100000 in
  match cmp10 1 (p + 1) v den with
  | Gt => match cmp10 1 p v den with Gt => p - 1 | _ => p end
  | _ => p + 1
  end.

(** The candidates with [n] digits, [d * 10^k] and [(d+1) * 10^k] around
    [v]; the one inside the interval, the nearer one when both are, the even
    one on a tie.  The bounds belong to the interval when [m] is even. *)
Definition candidate (even : bool) (low v high den k : Z) : option Z :=
  let d := if 0 <=? k then v / (den * 10 ^ k) else (v * 10 ^ (- k)) / den in
  let inside x :=
    match cmp10 x k low den, cmp10 x k high den with
    | Gt, Lt => true
    | Eq, _ | _, Eq => even
    | _, _ => false
    end in
  (* the distances to [v], doubled and scaled alike *)
  let below := if 0 <=? k then v - d * 10 ^ k * den else v * 10 ^ (- k) - d * den in
  let unit := if 0 <=? k then 10 ^ k * den else den in
  match inside d, inside (d + 1) with
  | true, true =>
      match Z.compare (2 * below) unit with
      | Lt => Some d
      | Gt => Some (d + 1)
      | Eq => Some (if Z.even d then d else d + 1)
      end
  | true, false => Some d
  | false, true => Some (d + 1)
  | false, false => None
  end.

Fixpoint shortest (fuel : nat) (n : Z) (even : bool) (low v high den p : Z)
  : option (Z * Z) :=
  match fuel with
  | O => None
  | S fuel' =>
      let k := p - n + 1 in
      match candidate even low v high den k with
      | Some d => Some (d, k)
      | None => shortest fuel' (n + 1) even low v high den p
      end
  end.

Fixpoint strip_zeros (fuel : nat) (d k : Z) : Z * Z :=
  match fuel with
  | O => (d, k)
  | S fuel' => if (d mod 10 =? 0) && negb (d =? 0) then strip_zeros fuel' (d / 10) (k + 1)
               else (d, k)
  end.

(** Digits and exponent of [repr] for a positive finite double; seventeen
    digits always suffice, and the exact expansion stands behind them. *)
Definition repr_digits (m : positive) (e : Z) : Z * Z :=
  let '(low, v, high, den) := interval m e in
  let p := decimal_exponent m e v den in
  match shortest 17 1 (Z.even (Zpos m)) low v high den p with
  | Some (d, k) => strip_zeros 17 d k
  | None => if 0 <=? e then (Zpos m * 2 ^ e, 0) else (Zpos m * 5 ^ (- e), e)
  end.

End PyFloat.

(** * [decimal.Decimal] under the default context *)

Module Decimal.

(** A finite number [c * 10^e], an infinity or a NaN.  The sign of a zero
    and the payload of a NaN are not kept: Python's comparisons and
    arithmetic do not tell them apart. *)
Inductive decimal : Type :=
  | DFin (c : Z) (e : Z)
  | DInf (neg : bool)
  | DNaN (signaling : bool).

Definition prec : Z := 28.
Definition Emax : Z := 999999.
Definition Emin : Z := -999999.
Definition Etiny : Z := Emin - (prec - 1).
Definition Etop : Z := Emax - (prec - 1).

Fixpoint ndigits_fuel (fuel : nat) (n : Z) : Z :=
  match fuel with
  | O => 1
  | S fuel' => if n <? 10 then 1 else 1 + ndigits_fuel fuel' (n / 10)
  end.

(** The number of decimal digits of [|n|]; one for zero. *)
Definition ndigits (n : Z) : Z :=
  ndigits_fuel (Z.to_nat (Z.log2 (Z.abs n))) (Z.abs n).

(** [a / 10^drop] rounded half-even, for [0 <= a] and [0 < drop]. *)
Definition round_half_even (a drop : Z) : Z :=
  let p := 10 ^ drop in
  let q := a / p in
  match Z.compare (2 * (a mod p)) p with
  | Lt => q
  | Gt => q + 1
  | Eq => if Z.even q then q else q + 1
  end.

(** [_fix]: a finite result is rounded to 28 digits, kept above [Etiny],
    and raises [Overflow] (a trapped signal) above [Emax]. *)
Definition fix_ctx (c e : Z) : res decimal :=
  if c =? 0 then Ok (DFin 0 (Z.min (Z.max e Etiny) Emax))
  else
    let a := Z.abs c in
    let exp_min := ndigits a + e - prec in
    if Etop <? exp_min then Raise DecimalOverflow
    else
      let exp_min := Z.max exp_min Etiny in
      if e <? exp_min then
        let q := round_half_even a (exp_min - e) in
        let carry := prec <? ndigits q in
        let q' := if carry then q / 10 else q in
        let exp' := if carry then exp_min + 1 else exp_min in
        if Etop <? exp' then Raise DecimalOverflow
        else Ok (DFin (Z.sgn c * q') exp')
      else Ok (DFin c e).

Definition neg (a : decimal) : decimal :=
  match a with
  | DFin c e => DFin (- c) e
  | DInf s => DInf (negb s)
  | DNaN s => DNaN s
  end.

(** [a + b] *)
Definition add (a b : decimal) : res decimal :=
  match a, b with
  | DNaN true, _ | _, DNaN true => Raise InvalidOperation
  | DNaN false, _ | _, DNaN false => Ok (DNaN false)
  | DInf s, DInf t => if Bool.eqb s t then Ok (DInf s) else Raise InvalidOperation
  | DInf s, DFin _ _ => Ok (DInf s)
  | DFin _ _, DInf t => Ok (DInf t)
  | DFin c1 e1, DFin c2 e2 =>
      let e := Z.min e1 e2 in
      fix_ctx (c1 * 10 ^ (e1 - e) + c2 * 10 ^ (e2 - e)) e
  end.

(** [a - b] is [a + (-b)]. *)
Definition sub (a b : decimal) : res decimal := add a (neg b).

(** The exact value; ordering a NaN raises [InvalidOperation]. *)
Definition exact (a : decimal) : res Ext.ext :=
  match a with
  | DFin c e => Ok (Ext.Fin (Ext.scaled c 10 e))
  | DInf s => Ok (if s then Ext.NegInf else Ext.PosInf)
  | DNaN _ => Raise InvalidOperation
  end.

(** [Decimal(repr(x))] of a [float]: [repr] writes plain digits when the
    decimal point falls in [(-4, 16]], with [.0] after a whole number, and
    scientific notation otherwise. *)
Definition of_float_repr (f : spec_float) : decimal :=
  match f with
  | S754_zero _ => DFin 0 (-1)
  | S754_infinity s => DInf s
  | S754_nan => DNaN false
  | S754_finite s m e =>
      let '(d, k) := PyFloat.repr_digits m e in
      let decpt := k + ndigits d in
      let sd := if s then - d else d in
      if (-4 <? decpt) && (decpt <=? 16) && (0 <=? k) then DFin (sd * 10 ^ (k + 1)) (-1)
      else DFin sd k
  end.

(** [float(d)]: the nearest double to the exact value, an infinity beyond
    the range; a signaling NaN raises [ValueError]. *)
Definition to_float (a : decimal) : res spec_float :=
  match a with
  | DNaN true => Raise (ValueError (py "cannot convert signaling NaN to float"))
  | DNaN false => Ok S754_nan
  | DInf s => Ok (S754_infinity s)
  | DFin c e =>
      match c with
      | Z0 => Ok (S754_zero false)
      | Zpos p | Zneg p =>
          let s := c <? 0 in
          if 0 <=? e then
            Ok (binary_normalize PyFloat.prec PyFloat.emax (c * 10 ^ e) 0 false)
          else
            Ok (SFdiv PyFloat.prec PyFloat.emax
                  (S754_finite s p 0)
                  (S754_finite false (Z.to_pos (10 ^ (- e))) 0))
      end
  end.

End Decimal.

(** * [datetime.datetime] *)

Module DateTime.

(** A naive timestamp (no [tzinfo]), as [datetime.now()] returns. *)
Record datetime : Type := mkDateTime {
  year : Z; month : Z; day : Z;
  hour : Z; minute : Z; second : Z; microsecond : Z
}.

(** ["%0nd"] for [0 <= x < 10^n]. *)
Fixpoint digits (n : nat) (x : Z) : pystr :=
  match n with
  | O => []
  | S n' => Z.to_N (48 + (x / 10 ^ Z.of_nat n') mod 10) :: digits n' x
  end.

(** [isoformat()]: [YYYY-MM-DDTHH:MM:SS], then [.ffffff] when the
    microsecond is not zero. *)
Definition isoformat (d : datetime) : pystr :=
  digits 4 (year d) ++ py "-" ++ digits 2 (month d) ++ py "-" ++ digits 2 (day d)
  ++ py "T" ++ digits 2 (hour d) ++ py ":" ++ digits 2 (minute d)
  ++ py ":" ++ digits 2 (second d)
  ++ (if microsecond d =? 0 then [] else py "." ++ digits 6 (microsecond d)).

End DateTime.

(** * Dynamically typed values and [dict] *)

Inductive value : Type :=
  | VInt (z : Z)
  | VFloat (f : spec_float)
  | VDec (d : Decimal.decimal)
  | VStr (s : pystr)
  | VNone
  | VDateTime (d : DateTime.datetime).

(** An insertion-ordered [dict] with [str] keys. *)
Definition dict (V : Type) : Type := list (pystr * V).

Fixpoint dict_get {V} (d : dict V) (k : pystr) : option V :=
  match d with
  | [] => None
  | (k', v) :: d' => if pystr_eqb k' k then Some v else dict_get d' k
  end.

(** [d[k] = v]: replaces in place, or appends a new key at the end. *)
Fixpoint dict_set {V} (d : dict V) (k : pystr) (v : V) : dict V :=
  match d with
  | [] => [(k, v)]
  | (k', v') :: d' =>
      if pystr_eqb k' k then (k', v) :: d' else (k', v') :: dict_set d' k v
  end.

Definition dict_in {V} (d : dict V) (k : pystr) : bool :=
  match dict_get d k with Some _ => true | None => false end.

(** [d[k]] *)
Definition getitem {V} (d : dict V) (k : pystr) : res V :=
  match dict_get d k with
  | Some v => Ok v
  | None => Raise KeyError
  end.

(** [bool(v)] *)
Definition truthy (v : value) : bool :=
  match v with
  | VInt z => negb (z =? 0)
  | VFloat (S754_zero _) => false
  | VFloat _ => true
  | VDec (Decimal.DFin 0 _) => false
  | VDec _ => true
  | VStr s => match s with [] => false | _ => true end
  | VNone => false
  | VDateTime _ => true
  end.

(** * The module's global names

    Lines 1 to 8 of the file bind global names by [import] statements, run
    top to bottom; a later binding of a name replaces the earlier one. *)

Module Namespace.

Inductive object : Type :=
  | Mod (name : string)
  | Attr (o : object) (name : string).

Inductive stmt : Type :=
  | Import (module : string)
  | FromImport (module : string) (names : list string).

Definition imports : list stmt :=
  [ Import "hashlib";
    Import "datetime";
    Import "json";
    FromImport "typing" ["Optional"];
    FromImport "typing" ["Union"];
    FromImport "decimal" ["Decimal"];
    FromImport "typing" ["Dict"; "Optional"];
    FromImport "datetime" ["datetime"] ]%string.

Definition globals : Type := list (string * object).

(** The most recent binding is first. *)
Definition exec (g : globals) (s : stmt) : globals :=
  match s with
  | Import m => (m, Mod m) :: g
  | FromImport m names => rev (List.map (fun n => (n, Attr (Mod m) n)) names) ++ g
  end.

Definition module_globals : globals := fold_left exec imports [].

Fixpoint lookup (g : globals) (name : string) : res object :=
  match g with
  | [] => Raise NameError
  | (n, o) :: g' => if String.eqb n name then Ok o else lookup g' name
  end.

(** The public attributes of the two objects the name [datetime] can denote:
    the module and the class it exports. *)
Definition attributes (o : object) : list string :=
  match o with
  | Mod "datetime" =>
      ["MAXYEAR"; "MINYEAR"; "UTC"; "date"; "datetime"; "datetime_CAPI";
       "sys"; "time"; "timedelta"; "timezone"; "tzinfo"]
  | Attr (Mod "datetime") "datetime" =>
      ["astimezone"; "combine"; "ctime"; "date"; "day"; "dst"; "fold";
       "fromisocalendar"; "fromisoformat"; "fromordinal"; "fromtimestamp";
       "hour"; "isocalendar"; "isoformat"; "isoweekday"; "max";
       "microsecond"; "min"; "minute"; "month"; "now"; "replace";
       "resolution"; "second"; "strftime"; "strptime"; "time"; "timestamp";
       "timetuple"; "timetz"; "today"; "toordinal"; "tzinfo"; "tzname";
       "utcfromtimestamp"; "utcnow"; "utcoffset"; "utctimetuple"; "weekday";
       "year"]
  | _ => []
  end%string.

Definition getattr (o : object) (name : string) : res object :=
  if existsb (String.eqb name) (attributes o) then Ok (Attr o name)
  else Raise AttributeError.

Definition datetime_class : object := Attr (Mod "datetime") "datetime".
Definition fromisoformat_method : object := Attr datetime_class "fromisoformat".

Definition object_eqb (a b : object) : bool :=
  if (fix eq (x y : object) : {x = y} + {x <> y} :=
        ltac:(decide equality; apply string_dec)) a b
  then true else false.

End Namespace.

(** * class User (lines 10 to 89) *)

Module User.

Record User : Type := mkUser {
  _user_id : value;
  _username : value;
  _hashed_password : value;
  _salt : value;
  _registration_date : value
}.

(** [__init__] stores its five arguments as they come. *)
Definition init (user_id username hashed_password salt registration_date : value) : User :=
  mkUser user_id username hashed_password salt registration_date.

Definition set_username (u : User) (v : value) : User :=
  mkUser (_user_id u) v (_hashed_password u) (_salt u) (_registration_date u).
Definition set_hashed_password (u : User) (v : value) : User :=
  mkUser (_user_id u) (_username u) v (_salt u) (_registration_date u).

(** The [username] setter. *)
Definition username_setter (v : value) : M User unit :=
  if negb (truthy v) then raise (ValueError (py "Имя пользователя не может быть пустым"))
  else u <- get ;; put (set_username u v).

(** [x.isoformat()]: of the values here only a [datetime] has the method. *)
Definition call_isoformat (v : value) : res value :=
  match v with
  | VDateTime d => Ok (VStr (DateTime.isoformat d))
  | _ => Raise AttributeError
  end.

Definition get_user_info : M User (dict value) :=
  u <- get ;;
  iso <- lift (call_isoformat (_registration_date u)) ;;
  ret [ (py "user_id", _user_id u);
        (py "username", _username u);
        (py "registration_date", iso) ].

(** [x.encode('utf-8')]: only a [str] has the method. *)
Definition call_encode (v : value) : res (list Byte.byte) :=
  match v with
  | VStr s => Utf8.encode s
  | _ => Raise AttributeError
  end.

Definition _hash_password (password : value) : M User value :=
  u <- get ;;
  password_bytes <- lift (call_encode password) ;;
  salt_bytes <- lift (call_encode (_salt u)) ;;
  ret (VStr (SHA256.hexdigest (password_bytes ++ salt_bytes))).

(** [len(x)] *)
Definition len (v : value) : res Z :=
  match v with
  | VStr s => Ok (Z.of_nat (List.length s))
  | _ => Raise TypeError
  end.

Definition change_password (new_password : value) : M User unit :=
  n <- lift (len new_password) ;;
  if n <? 4 then raise (ValueError (py "Пароль должен содержать минимум 4 символа"))
  else
    h <- _hash_password new_password ;;
    u <- get ;;
    put (set_hashed_password u h).

(** [a == b] where [a] is a [str]. *)
Definition str_eq (a : value) (b : value) : bool :=
  match a, b with
  | VStr x, VStr y => pystr_eqb x y
  | _, _ => false
  end.

Definition verify_password (password : value) : M User bool :=
  h <- _hash_password password ;;
  u <- get ;;
  ret (str_eq h (_hashed_password u)).

Definition to_dict : M User (dict value) :=
  u <- get ;;
  iso <- lift (call_isoformat (_registration_date u)) ;;
  ret [ (py "user_id", _user_id u);
        (py "username", _username u);
        (py "hashed_password", _hashed_password u);
        (py "salt", _salt u);
        (py "registration_date", iso) ].

Section FromDict.

(** [datetime.fromisoformat] is the standard library's parser; [from_dict]
    is stated for any parser. *)
Variable fromisoformat : pystr -> res DateTime.datetime.

(** Calling an object of the namespace with one argument. *)
Definition call (f : Namespace.object) (arg : value) : res value :=
  if Namespace.object_eqb f Namespace.fromisoformat_method then
    match arg with
    | VStr s => d <~ fromisoformat s ;; Ok (VDateTime d)
    | _ => Raise TypeError
    end
  else Raise TypeError.

(** The keyword arguments of [cls(...)] are evaluated left to right; the
    fifth resolves [datetime.datetime.fromisoformat] against the module's
    globals before it reads [data['registration_date']]. *)
Definition from_dict_in (g : Namespace.globals) (data : dict value) : res User :=
  user_id <~ getitem data (py "user_id") ;;
  username <~ getitem data (py "username") ;;
  hashed_password <~ getitem data (py "hashed_password") ;;
  salt <~ getitem data (py "salt") ;;
  dt <~ Namespace.lookup g "datetime" ;;
  cls <~ Namespace.getattr dt "datetime" ;;
  meth <~ Namespace.getattr cls "fromisoformat" ;;
  raw <~ getitem data (py "registration_date") ;;
  registration_date <~ call meth raw ;;
  Ok (init user_id username hashed_password salt registration_date).

Definition from_dict (data : dict value) : res User :=
  from_dict_in Namespace.module_globals data.

End FromDict.

End User.

(** * Numbers as values: [Decimal(str(v))], comparisons, arithmetic *)

Module Num.
Import Decimal.

(** *** [Decimal(s)] of a [str]

    Surrounding whitespace is stripped and underscores are dropped; what
    remains is an optional sign and then digits with an optional point and an
    optional exponent, or [Inf], [Infinity], [NaN] or [sNaN] in any case.
    The digits read are the ASCII ones. *)

Definition is_space (c : N) : bool :=
  existsb (N.eqb c)
    [9; 10; 11; 12; 13; 28; 29; 30; 31; 32; 133; 160; 5760; 8192; 8193; 8194;
     8195; 8196; 8197; 8198; 8199; 8200; 8201; 8202; 8232; 8233; 8239; 8287;
     12288]%N.

Fixpoint lstrip (s : pystr) : pystr :=
  match s with
  | c :: s' => if is_space c then lstrip s' else s
  | [] => []
  end.

Definition strip (s : pystr) : pystr := rev (lstrip (rev (lstrip s))).

Definition lower (c : N) : N :=
  (if (65 <=? c) && (c <=? 90) then c + 32 else c)%N.

Definition is_digit (c : N) : bool := ((48 <=? c) && (c <=? 57))%N.

(** The leading digits of [s], and the rest. *)
Fixpoint span_digits (s : pystr) : pystr * pystr :=
  match s with
  | c :: s' =>
      if is_digit c then let '(ds, r) := span_digits s' in (c :: ds, r)
      else ([], s)
  | [] => ([], [])
  end.

Definition digits_value (ds : pystr) : Z :=
  fold_left (fun acc c => 10 * acc + (Z.of_N c - 48)) ds 0.

Definition sign_of (s : pystr) : bool * pystr :=
  match s with
  | 45%N :: r => (true, r)
  | 43%N :: r => (false, r)
  | _ => (false, s)
  end.

(** The exponent part: nothing, or [e] with an optional sign and at least
    one digit, up to the end of the string. *)
Definition exponent_part (s : pystr) : option Z :=
  match s with
  | [] => Some 0
  | c :: r =>
      if (lower c =? 101)%N then
        let '(neg, r') := sign_of r in
        match span_digits r' with
        | (d0 :: ds, []) =>
            let e := digits_value (d0 :: ds) in
            Some (if neg then - e else e)
        | _ => None
        end
      else None
  end.

Definition finite_part (neg : bool) (s : pystr) : option decimal :=
  let '(int_ds, r) := span_digits s in
  let '(frac_ds, r') :=
    match r with
    | 46%N :: r1 => span_digits r1
    | _ => ([], r)
    end in
  match int_ds ++ frac_ds with
  | [] => None
  | ds =>
      match exponent_part r' with
      | Some e =>
          let c := digits_value ds in
          Some (DFin (if neg then - c else c) (e - Z.of_nat (List.length frac_ds)))
      | None => None
      end
  end.

Definition special_part (neg : bool) (s : pystr) : option decimal :=
  let l := List.map lower s in
  if pystr_eqb l (py "inf") || pystr_eqb l (py "infinity") then Some (DInf neg)
  else
    match l with
    | 110 :: 97 :: 110 :: r =>
        match span_digits r with (_, []) => Some (DNaN false) | _ => None end
    | 115 :: 110 :: 97 :: 110 :: r =>
        match span_digits r with (_, []) => Some (DNaN true) | _ => None end
    | _ => None
    end%N.

Definition parse (s : pystr) : res decimal :=
  let t := List.filter (fun c => negb (c =? 95)%N) (strip s) in
  let '(neg, r) := sign_of t in
  match finite_part neg r with
  | Some d => Ok d
  | None =>
      match special_part neg r with
      | Some d => Ok d
      | None => Raise InvalidOperation
      end
  end.

(** *** [Decimal(str(v))]

    [str] of an [int] is its digits, refused beyond 4300 of them; of a
    [float] its [repr]; of a [Decimal] a string that reads back as the same
    [Decimal]; of [None] and of a [datetime] a text that is no number. *)
Definition decimal_of_str (v : value) : res decimal :=
  match v with
  | VInt z =>
      if 4300 <? ndigits z then
        Raise (ValueError (py "Exceeds the limit (4300 digits) for integer string conversion; use sys.set_int_max_str_digits() to increase the limit"))
      else Ok (DFin z 0)
  | VFloat f => Ok (of_float_repr f)
  | VDec d => Ok d
  | VStr s => parse s
  | VNone => Raise InvalidOperation
  | VDateTime _ => Raise InvalidOperation
  end.

(** [isinstance(v, (float, int))] *)
Definition is_number (v : value) : bool :=
  match v with
  | VInt _ | VFloat _ => true
  | _ => false
  end.

(** The exact value of a number; comparing a NaN with a [Decimal] raises
    [InvalidOperation], an operand that is no number [TypeError]. *)
Definition exact (v : value) : res Ext.ext :=
  match v with
  | VInt z => Ok (Ext.Fin (inject_Z z))
  | VFloat f =>
      match PyFloat.exact f with
      | Some x => Ok x
      | None => Raise InvalidOperation
      end
  | VDec d => Decimal.exact d
  | _ => Raise TypeError
  end.

(** [d < v], which is also how Python evaluates [v > d] for an [int] or a
    [float] [v]: [Decimal.__lt__]. *)
Definition dec_lt (d : decimal) (v : value) : res bool :=
  y <~ exact v ;;
  x <~ Decimal.exact d ;;
  Ok (Ext.ltb x y).

(** [v <= 0] *)
Definition le_zero (v : value) : res bool :=
  match v with
  | VInt z => Ok (z <=? 0)
  | VFloat S754_nan => Ok false
  | VFloat (S754_zero _) => Ok true
  | VFloat (S754_infinity s) => Ok s
  | VFloat (S754_finite s _ _) => Ok s
  | VDec d => x <~ Decimal.exact d ;; Ok (Ext.leb x Ext.zero)
  | _ => Raise TypeError
  end.

(** [v * r] for a [float] [r]: an [int] is converted first; [Decimal] and
    [float] do not multiply. *)
Definition mul_float (v : value) (r : spec_float) : res value :=
  match v with
  | VInt z => f <~ PyFloat.of_int z ;; Ok (VFloat (PyFloat.mul f r))
  | VFloat f => Ok (VFloat (PyFloat.mul f r))
  | _ => Raise TypeError
  end.

(** [v / r] for a [float] [r] *)
Definition div_float (v : value) (r : spec_float) : res value :=
  match v with
  | VInt z => f <~ PyFloat.of_int z ;; q <~ PyFloat.div f r ;; Ok (VFloat q)
  | VFloat f => q <~ PyFloat.div f r ;; Ok (VFloat q)
  | _ => Raise TypeError
  end.

(** [t + v] for a [float] [t] *)
Definition float_add (t : spec_float) (v : value) : res spec_float :=
  match v with
  | VInt z => f <~ PyFloat.of_int z ;; Ok (PyFloat.add t f)
  | VFloat f => Ok (PyFloat.add t f)
  | _ => Raise TypeError
  end.

End Num.

(** * class Wallet (lines 107 to 171) *)

Module Wallet.
Import Decimal.

Record Wallet : Type := mkWallet {
  currency_code : value;
  _balance : decimal
}.

(** [__init__]: the balance is converted, and not validated. *)
Definition init (currency_code balance : value) : res Wallet :=
  d <~ Num.decimal_of_str balance ;;
  Ok (mkWallet currency_code d).

(** The default [balance=0.0]. *)
Definition init_default (currency_code : value) : res Wallet :=
  init currency_code (VFloat PyFloat.zero).

(** The [balance] getter. *)
Definition balance (w : Wallet) : decimal := _balance w.

(** [try: ... except (ValueError, TypeError): raise ValueError(msg)] *)
Definition except_value_or_type {A} (r : res A) (msg : pystr) : res A :=
  match r with
  | Raise e => if is_ValueError e || is_TypeError e then Raise (ValueError msg) else Raise e
  | Ok a => Ok a
  end.

(** The [balance] setter (lines 117 to 128). *)
Definition balance_setter (value : value) : M Wallet unit :=
  d <- lift (except_value_or_type (Num.decimal_of_str value) (py "Баланс должен быть числом")) ;;
  negative <- lift (Num.dec_lt d (VInt 0)) ;;
  if negative then raise (ValueError (py "Баланс не может быть отрицательным"))
  else w <- get ;; put (mkWallet (currency_code w) d).

Definition deposit (amount : value) : M Wallet unit :=
  if negb (Num.is_number amount) then raise TypeError
  else
    nonpositive <- lift (Num.le_zero amount) ;;
    if nonpositive then raise (ValueError (py "Сумма пополнения должна быть положительной"))
    else
      w <- get ;;
      d <- lift (Num.decimal_of_str amount) ;;
      s <- lift (Decimal.add (balance w) d) ;;
      balance_setter (VDec s).

Definition withdraw (amount : value) : M Wallet unit :=
  if negb (Num.is_number amount) then raise TypeError
  else
    nonpositive <- lift (Num.le_zero amount) ;;
    if nonpositive then raise (ValueError (py "Сумма снятия должна быть положительной"))
    else
      w <- get ;;
      exceeds <- lift (Num.dec_lt (balance w) amount) ;;
      if exceeds then raise (ValueError (py "Недостаточно средств для снятия"))
      else
        d <- lift (Num.decimal_of_str amount) ;;
        s <- lift (Decimal.sub (balance w) d) ;;
        balance_setter (VDec s).

Definition get_balance_info : M Wallet (dict value) :=
  w <- get ;;
  f <- lift (Decimal.to_float (balance w)) ;;
  ret [ (py "currency_code", currency_code w); (py "balance", VFloat f) ].

Definition to_dict : M Wallet (dict value) :=
  w <- get ;;
  f <- lift (Decimal.to_float (balance w)) ;;
  ret [ (py "currency_code", currency_code w); (py "balance", VFloat f) ].

Definition from_dict (data : dict value) : res Wallet :=
  currency_code <~ getitem data (py "currency_code") ;;
  balance <~ getitem data (py "balance") ;;
  init currency_code balance.

End Wallet.

(** * class Portfolio (lines 187 to 276) *)

Module Portfolio.
Import Wallet.

(** The class attribute: four [float] literals. *)
Definition EXCHANGE_RATES : dict spec_float :=
  [ (py "USD", PyFloat.literal 1 1);
    (py "EUR", PyFloat.literal 11 10);
    (py "BTC", PyFloat.literal 40000 1);
    (py "RUB", PyFloat.literal 12 1000) ].

(** [_wallets] maps a currency code to the wallet object it owns.  A wallet
    is reached through its key: [get_wallet] hands out the object itself,
    so two lookups of one code are one wallet. *)
Record Portfolio : Type := mkPortfolio {
  _user_id : value;
  _wallets : dict Wallet
}.

Definition init (user_id : value) : Portfolio := mkPortfolio user_id [].

Definition user_id (p : Portfolio) : value := _user_id p.

(** The [wallets] property: a copy of the mapping. *)
Definition wallets (p : Portfolio) : dict Wallet := _wallets p.

Definition add_currency (currency_code : pystr) : M Portfolio unit :=
  p <- get ;;
  if dict_in (_wallets p) currency_code then
    raise (ValueError (py "Кошелёк для валюты " ++ currency_code ++ py " уже существует"))
  else if negb (dict_in EXCHANGE_RATES currency_code) then
    raise (ValueError (py "Неизвестный код валюты " ++ currency_code))
  else
    w <- lift (Wallet.init_default (VStr currency_code)) ;;
    put (mkPortfolio (_user_id p) (dict_set (_wallets p) currency_code w)).

(** [None] is Python's [None]. *)
Definition get_wallet (currency_code : pystr) (p : Portfolio) : option Wallet :=
  dict_get (_wallets p) currency_code.

(** A method call on the wallet object stored under [code].  The portfolio
    never drops a wallet, so a wallet found once is found again. *)
Definition on_wallet {A} (code : pystr) (m : M Wallet A) : M Portfolio A :=
  fun p =>
    match dict_get (_wallets p) code with
    | Some w =>
        let '(r, w') := m w in
        (r, mkPortfolio (_user_id p) (dict_set (_wallets p) code w'))
    | None => (Raise KeyError, p)
    end.

(** [EXCHANGE_RATES.get(k)]: a key that is no [str] is not in the table; a
    signaling NaN cannot be hashed. *)
Definition rate_of (k : value) : res (option spec_float) :=
  match k with
  | VStr s => Ok (dict_get EXCHANGE_RATES s)
  | VDec (Decimal.DNaN true) => Raise TypeError
  | _ => Ok None
  end.

(** The loop of [get_total_value] over [self._wallets.values()]. *)
Fixpoint total_loop (ws : list Wallet) (base_currency : pystr) (total_value : spec_float)
  : res spec_float :=
  match ws with
  | [] => Ok total_value
  | wallet :: ws' =>
      currency_rate <~ rate_of (currency_code wallet) ;;
      match currency_rate, dict_get EXCHANGE_RATES base_currency with
      | Some currency_rate, Some base_rate =>
          product <~ Num.mul_float (VDec (balance wallet)) currency_rate ;;
          value_in_base <~ Num.div_float product base_rate ;;
          total_value' <~ Num.float_add total_value value_in_base ;;
          total_loop ws' base_currency total_value'
      | _, _ => total_loop ws' base_currency total_value
      end
  end.

Definition get_total_value (base_currency : pystr) : M Portfolio spec_float :=
  if negb (dict_in EXCHANGE_RATES base_currency) then
    raise (ValueError (py "Неизвестный код базовой валюты " ++ base_currency))
  else
    p <- get ;;
    lift (total_loop (List.map snd (_wallets p)) base_currency PyFloat.zero).

Definition buy_currency (amount : value) (from_currency to_currency : pystr)
  : M Portfolio unit :=
  nonpositive <- lift (Num.le_zero amount) ;;
  if nonpositive then raise (ValueError (py "Сумма покупки должна быть положительной"))
  else
    p <- get ;;
    match get_wallet from_currency p, get_wallet to_currency p with
    | Some _, Some _ =>
        on_wallet from_currency (Wallet.withdraw amount) ;;;
        from_rate <- lift (getitem EXCHANGE_RATES from_currency) ;;
        to_rate <- lift (getitem EXCHANGE_RATES to_currency) ;;
        product <- lift (Num.mul_float amount from_rate) ;;
        converted_amount <- lift (Num.div_float product to_rate) ;;
        on_wallet to_currency (Wallet.deposit converted_amount)
    | _, _ => raise (ValueError (py "Один из кошельков не существует"))
    end.

(** The file ends after the lookup of [from_rate]: nothing is deposited. *)
Definition sell_currency (amount : value) (from_currency to_currency : pystr)
  : M Portfolio unit :=
  nonpositive <- lift (Num.le_zero amount) ;;
  if nonpositive then raise (ValueError (py "Сумма продажи должна быть положительной"))
  else
    p <- get ;;
    match get_wallet from_currency p, get_wallet to_currency p with
    | Some from_wallet, Some _ =>
        short <- lift (Num.dec_lt (balance from_wallet) amount) ;;
        if short then raise (ValueError (py "Недостаточно средств для продажи"))
        else
          on_wallet from_currency (Wallet.withdraw amount) ;;;
          from_rate <- lift (getitem EXCHANGE_RATES from_currency) ;;
          ret tt
    | _, _ => raise (ValueError (py "Один из кошельков не существует"))
    end.

End Portfolio.

(** * Vocabulary of the properties *)

Module UserSpec.
Import User.

(** The shape [isoformat] always has: digits and the separators of
    ISO 8601, [None] standing for a decimal digit. *)
Definition is_digit (c : N) : bool := ((48 <=? c) && (c <=? 57))%N.

Fixpoint matches (pat : list (option N)) (s : pystr) : bool :=
  match pat, s with
  | [], [] => true
  | None :: pat', c :: s' => is_digit c && matches pat' s'
  | Some k :: pat', c :: s' => (k =? c)%N && matches pat' s'
  | _, _ => false
  end.

Definition lit (s : string) : list (option N) := List.map Some (py s).
Definition dig (n : nat) : list (option N) := repeat None n.

Definition iso_seconds : list (option N) :=
  dig 4 ++ lit "-" ++ dig 2 ++ lit "-" ++ dig 2 ++ lit "T"
  ++ dig 2 ++ lit ":" ++ dig 2 ++ lit ":" ++ dig 2.

Definition iso_micros : list (option N) := iso_seconds ++ lit "." ++ dig 6.

Definition iso8601 (s : pystr) : bool := matches iso_seconds s || matches iso_micros s.

(** The user of the module's demo block (lines 92 to 98). *)
Definition alice (d : DateTime.datetime) : User :=
  init (VInt 1) (VStr (py "alice")) (VStr (py "")) (VStr (py "x5T9!")) (VDateTime d).

Definition epoch : DateTime.datetime := DateTime.mkDateTime 2024 1 2 3 4 5 0.

End UserSpec.

Module WalletSpec.
Import Decimal Wallet.

(** [d >= 0] in Python: [d < 0] evaluates to [False]. *)
Definition nonneg (d : decimal) : bool :=
  match d with
  | DFin c _ => 0 <=? c
  | DInf s => negb s
  | DNaN _ => false
  end.

(** [c > 0] for a [float]: a positive finite number or [inf]; not a NaN. *)
Definition positive_float (f : spec_float) : bool :=
  match f with
  | S754_finite false _ _ | S754_infinity false => true
  | _ => false
  end.

(** A number the arithmetic of the default context has room for: an infinity,
    or a finite decimal below [10^(Emax-1)]. *)
Definition in_range (d : decimal) : bool :=
  match d with
  | DFin c e => ndigits c + e <? Emax
  | DInf _ => true
  | DNaN _ => false
  end.

(** Sequences of calls. *)
Inductive call : Type :=
  | Deposit (amount : value)
  | Withdraw (amount : value).

Definition run_call (c : call) : M Wallet unit :=
  match c with
  | Deposit a => deposit a
  | Withdraw a => withdraw a
  end.

(** The wallet after the calls [cs], when every one of them succeeds. *)
Fixpoint all_succeed (cs : list call) (w : Wallet) : option Wallet :=
  match cs with
  | [] => Some w
  | c :: cs' =>
      match run_call c w with
      | (Ok _, w') => all_succeed cs' w'
      | (Raise _, _) => None
      end
  end.

(** The spec's scenario: [Wallet("BTC", 0.05)], [deposit(0.1)] gives 0.15,
    [withdraw(0.05)] gives 0.10, and [withdraw(1.0)] fails and keeps 0.10. *)
Definition btc (cents : Z) : Wallet := mkWallet (VStr (py "BTC")) (DFin cents (-2)).

End WalletSpec.

Module PortfolioSpec.
Import Decimal Wallet Portfolio.

(** What [add_currency] establishes and the wallet methods keep: every
    wallet carries the code it is stored under, and that code is in the
    rate table. *)
Definition wf (p : Portfolio) : Prop :=
  Forall (fun kw => currency_code (snd kw) = VStr (fst kw)
                    /\ dict_in EXCHANGE_RATES (fst kw) = true) (_wallets p).

(** The number of wallets stored under a code. *)
Definition count_wallets (code : pystr) (p : Portfolio) : nat :=
  List.length (List.filter (fun kw => pystr_eqb (fst kw) code) (_wallets p)).

Definition set_wallet (p : Portfolio) (k : pystr) (w : Wallet) : Portfolio :=
  mkPortfolio (_user_id p) (dict_set (_wallets p) k w).

(** [amount * rate[from] / rate[to]], in [float] arithmetic. *)
Definition converted (amount : value) (from_currency to_currency : pystr) : res value :=
  from_rate <~ getitem EXCHANGE_RATES from_currency ;;
  to_rate <~ getitem EXCHANGE_RATES to_currency ;;
  product <~ Num.mul_float amount from_rate ;;
  Num.div_float product to_rate.

(** The claim as stated: whenever both wallets exist and the amount is a
    positive number that does not exceed the balance of the first, the call
    succeeds, the first wallet loses the amount and the second gains the
    converted amount. *)
Definition buy_claim : Prop :=
  forall p amount from_code to_code w_from w_to,
    wf p ->
    get_wallet from_code p = Some w_from ->
    get_wallet to_code p = Some w_to ->
    Num.is_number amount = true ->
    Num.le_zero amount = Ok false ->
    Num.dec_lt (balance w_from) amount = Ok false ->
    exists p' w_from' w_to' d c dc,
      buy_currency amount from_code to_code p = (Ok tt, p')
      /\ get_wallet from_code p' = Some w_from'
      /\ get_wallet to_code p' = Some w_to'
      /\ Num.decimal_of_str amount = Ok d
      /\ Decimal.sub (balance w_from) d = Ok (balance w_from')
      /\ converted amount from_code to_code = Ok c
      /\ Num.decimal_of_str c = Ok dc
      /\ Decimal.add (balance w_to) dc = Ok (balance w_to').

Definition usd (tenths : Z) : Wallet := mkWallet (VStr (py "USD")) (DFin tenths (-1)).
Definition eur (c e : Z) : Wallet := mkWallet (VStr (py "EUR")) (DFin c e).

(** The portfolio of the spec's scenario, wallets {USD: 100, EUR: 0}:
    [add_currency] twice, then a deposit of 100 into the USD wallet. *)
Definition usd_eur (usd_tenths : Z) (eur_c eur_e : Z) : Portfolio :=
  mkPortfolio (VInt 1) [(py "USD", usd usd_tenths); (py "EUR", eur eur_c eur_e)].

(** {USD: 0.29999999999999999, EUR: 0}: the USD balance as the setter
    stores it from the [str] of that number. *)
Definition usd_short : Portfolio :=
  mkPortfolio (VInt 1)
    [ (py "USD", mkWallet (VStr (py "USD")) (DFin 29999999999999999 (-17)));
      (py "EUR", eur 0 (-1)) ].

(** The claim as stated: a successful call takes the amount from the first
    wallet and leaves the balance of the second as it was. *)
Definition sell_claim : Prop :=
  forall p amount from_code to_code w_from w_to d p',
    wf p ->
    get_wallet from_code p = Some w_from ->
    get_wallet to_code p = Some w_to ->
    Num.decimal_of_str amount = Ok d ->
    sell_currency amount from_code to_code p = (Ok tt, p') ->
    exists w_from' w_to',
      get_wallet from_code p' = Some w_from'
      /\ get_wallet to_code p' = Some w_to'
      /\ Decimal.sub (balance w_from) d = Ok (balance w_from')
      /\ balance w_to' = balance w_to.

(** The claim as stated, for [buy_currency]: a call that fails leaves the
    portfolio as it was. *)
Definition failure_claim : Prop :=
  forall p amount from_code to_code e p',
    wf p -> Num.is_number amount = true ->
    buy_currency amount from_code to_code p = (Raise e, p') -> p' = p.

(** The smallest positive [float], 5e-324. *)
Definition tiny : spec_float := S754_finite false 1 (-1074).

Definition usd_btc (usd_c usd_e : Z) : Portfolio :=
  mkPortfolio (VInt 1)
    [ (py "USD", mkWallet (VStr (py "USD")) (DFin usd_c usd_e));
      (py "BTC", mkWallet (VStr (py "BTC")) (DFin 0 (-1))) ].

(** The three ways the spec names in which a call is refused: the amount is
    not positive, a wallet is missing, the amount exceeds the balance of
    the source wallet. *)
Definition refused (amount : value) (from_code to_code : pystr) (p : Portfolio) : Prop :=
  Num.le_zero amount = Ok true
  \/ get_wallet from_code p = None
  \/ get_wallet to_code p = None
  \/ exists w, get_wallet from_code p = Some w /\ Num.dec_lt (balance w) amount = Ok true.

End PortfolioSpec.

(** * Vocabulary of the further properties *)

Module LawsSpec.
Import Decimal Wallet Portfolio WalletSpec PortfolioSpec.

(** A lowercase hexadecimal digit. *)
Definition is_hex (c : N) : bool :=
  ((48 <=? c) && (c <=? 57) || (97 <=? c) && (c <=? 102))%N.

(** The three ways of changing a wallet's balance. *)
Inductive mutation : Type :=
  | Deposits (amount : value)
  | Withdraws (amount : value)
  | Assigns (v : value).

Definition run_mutation (m : mutation) : M Wallet unit :=
  match m with
  | Deposits a => deposit a
  | Withdraws a => withdraw a
  | Assigns v => balance_setter v
  end.

(** The wallet after the mutations [ms], when each of them succeeds. *)
Fixpoint run_all (ms : list mutation) (w : Wallet) : option Wallet :=
  match ms with
  | [] => Some w
  | m :: ms' =>
      match run_mutation m w with
      | (Ok _, w') => run_all ms' w'
      | (Raise _, _) => None
      end
  end.

(** The codes a portfolio holds wallets for, in insertion order. *)
Definition codes (p : Portfolio) : list pystr := List.map fst (_wallets p).

Definition nonneg_balances (p : Portfolio) : Prop :=
  Forall (fun kw => nonneg (balance (snd kw)) = true) (_wallets p).

(** What every portfolio built through the class's methods satisfies. *)
Definition inv (p : Portfolio) : Prop :=
  wf p /\ NoDup (codes p) /\ nonneg_balances p.

Definition table_codes : list pystr := List.map fst EXCHANGE_RATES.

(** What a caller can do with a portfolio through the methods of the two
    classes; the last is a method call on the wallet that [get_wallet]
    hands out. *)
Inductive operation : Type :=
  | Adds (code : pystr)
  | Buys (amount : value) (from_currency to_currency : pystr)
  | Sells (amount : value) (from_currency to_currency : pystr)
  | OnWallet (code : pystr) (m : mutation).

(** [get_wallet] returns the stored object, or [None], which has none of
    the wallet's methods. *)
Definition run_operation (o : operation) : M Portfolio unit :=
  match o with
  | Adds code => add_currency code
  | Buys amount f t => buy_currency amount f t
  | Sells amount f t => sell_currency amount f t
  | OnWallet code m =>
      fun p =>
        match get_wallet code p with
        | Some _ => on_wallet code (run_mutation m) p
        | None => (Raise AttributeError, p)
        end
  end.

(** The portfolio after the operations, each one run on the state the one
    before left, whether or not that one raised. *)
Fixpoint run_operations (os : list operation) (p : Portfolio) : Portfolio :=
  match os with
  | [] => p
  | o :: os' => run_operations os' (snd (run_operation o p))
  end.

(** [p'] has the user and the wallets of [p], in the same order and under
    the same codes, and perhaps more wallets after them. *)
Definition extends (p p' : Portfolio) : Prop :=
  _user_id p' = _user_id p
  /\ (exists more, codes p' = codes p ++ more)
  /\ forall k w, get_wallet k p = Some w ->
       exists w', get_wallet k p' = Some w' /\ currency_code w' = currency_code w.

(** [p'] is [p], or [p] after one method call on one of its wallets. *)
Definition touched (p p' : Portfolio) : Prop :=
  p' = p
  \/ exists k w m, get_wallet k p = Some w
                   /\ p' = set_wallet p k (snd (run_mutation m w)).

End LawsSpec.

(** * Properties *)

Section PyFacts.

Lemma pystr_eqb_eq a b : pystr_eqb a b = true <-> a = b.
Proof.
  unfold pystr_eqb. destruct (list_eq_dec N.eq_dec a b); split; congruence.
Qed.

Lemma pystr_eqb_refl a : pystr_eqb a a = true.
Proof. now apply pystr_eqb_eq. Qed.

Lemma pystr_eqb_neq a b : a <> b -> pystr_eqb a b = false.
Proof.
  intros H. destruct (pystr_eqb a b) eqn:E; [|reflexivity].
  now apply pystr_eqb_eq in E.
Qed.

End PyFacts.

Module SHA256Facts.
Import SHA256.

(** The tables are the constants FIPS 180-4 defines. *)
Lemma K_from_cube_roots : K = List.map frac_cube_root (primes_below 312).
Proof. vm_compute. reflexivity. Qed.

Lemma init_from_square_roots :
  [ra init; rb init; rc init; rd init; re init; rf init; rg init; rh init]
  = List.map frac_square_root (primes_below 20).
Proof. vm_compute. reflexivity. Qed.

(** The test vectors of FIPS 180-2, appendix B.1 and B.2. *)
Lemma digest_abc :
  hexdigest [Byte.x61; Byte.x62; Byte.x63]
  = py "ba7816bf8f01cfea414140de5dae2223b00361a396177a9cb410ff61f20015ad".
Proof. vm_compute. reflexivity. Qed.

Lemma digest_two_blocks :
  Utf8.encode (py "abcdbcdecdefdefgefghfghighijhijkijkljklmklmnlmnomnopnopq") =
  Ok (List.map Utf8.byte_of_N (py "abcdbcdecdefdefgefghfghighijhijkijkljklmklmnlmnomnopnopq"))
  /\ hexdigest (List.map Utf8.byte_of_N
                 (py "abcdbcdecdefdefgefghfghighijhijkijkljklmklmnlmnomnopnopq"))
     = py "248d6a61d20638b8e5c026930c3e6039a33ce45964ff2167f6ecedd419db06c1".
Proof. split; vm_compute; reflexivity. Qed.

End SHA256Facts.

Module Utf8Facts.
Import Utf8.

Lemma encode_cp_ok c :
  (c <? 1114112)%N && negb (surrogate c) = true ->
  exists b, encode_cp c = Ok b.
Proof.
  unfold encode_cp, surrogate. intros H.
  apply andb_true_iff in H as [H1 H2].
  destruct (c <? 128)%N; [eauto|].
  destruct (c <? 2048)%N; [eauto|].
  destruct (c <? 65536)%N.
  - destruct ((55296 <=? c)%N && (c <=? 57343)%N); [discriminate | eauto].
  - rewrite H1. eauto.
Qed.

Lemma encode_ok s : encodable s = true -> exists b, encode s = Ok b.
Proof.
  induction s as [|c s IH]; simpl; intros H; [eauto|].
  apply andb_true_iff in H as [Hc Hs].
  destruct (encode_cp_ok c Hc) as [b ->].
  destruct (IH Hs) as [bs ->]. simpl. eauto.
Qed.

Lemma encode_app s t bs bt :
  encode s = Ok bs -> encode t = Ok bt -> encode (s ++ t) = Ok (bs ++ bt).
Proof.
  revert bs. induction s as [|c s IH]; simpl; intros bs Hs Ht.
  - injection Hs as <-. exact Ht.
  - destruct (encode_cp c) as [b|]; [|discriminate]. simpl in *.
    destruct (encode s) as [bs'|]; [|discriminate]. simpl in *.
    injection Hs as <-. rewrite (IH bs' eq_refl Ht). simpl.
    now rewrite app_assoc.
Qed.

End Utf8Facts.

(** ** User *)

Module UserProps.
Import User UserSpec.

Lemma matches_digits n x pat s :
  matches (dig n ++ pat) (DateTime.digits n x ++ s) = matches pat s.
Proof.
  unfold dig. induction n as [|n IH]; [reflexivity|].
  cbn [DateTime.digits repeat app matches].
  rewrite IH. replace (is_digit _) with true; [reflexivity|].
  symmetry. unfold is_digit.
  pose proof (Z.mod_pos_bound (x / 10 ^ Z.of_nat n) 10 ltac:(lia)).
  apply andb_true_iff; split; apply N.leb_le; lia.
Qed.

Lemma matches_lit c pat s : matches (Some c :: pat) (c :: s) = matches pat s.
Proof. simpl. now rewrite N.eqb_refl. Qed.

Lemma matches_digits_end n x : matches (dig n) (DateTime.digits n x) = true.
Proof.
  rewrite <- (app_nil_r (dig n)), <- (app_nil_r (DateTime.digits n x)).
  now rewrite matches_digits.
Qed.

Lemma isoformat_iso8601 d : iso8601 (DateTime.isoformat d) = true.
Proof.
  unfold iso8601, iso_micros, iso_seconds, DateTime.isoformat.
  change (lit "-") with [Some 45%N]. change (lit "T") with [Some 84%N].
  change (lit ":") with [Some 58%N]. change (lit ".") with [Some 46%N].
  change (py "-") with [45%N]. change (py "T") with [84%N].
  change (py ":") with [58%N]. change (py ".") with [46%N].
  rewrite <- !app_assoc.
  destruct (DateTime.microsecond d =? 0).
  - apply orb_true_iff; left.
    repeat (rewrite matches_digits; cbn [app]; rewrite matches_lit).
    rewrite app_nil_r. apply matches_digits_end.
  - apply orb_true_iff; right.
    repeat (rewrite matches_digits; cbn [app]; rewrite matches_lit).
    apply matches_digits_end.
Qed.

(** C10.  [get_user_info()] of a user returns exactly three entries, the
    identifier, the username and the registration timestamp rendered by
    [isoformat] (an ISO 8601 string), in that order, and leaves the user as
    it was; neither the hash nor the salt is a key of the result, and two
    users that differ only in hash and salt get equal results. *)
Theorem get_user_info_hides_credentials :
  forall (uid : Z) (name : pystr) (d : DateTime.datetime) (h s h' s' : value),
    let u := init (VInt uid) (VStr name) h s (VDateTime d) in
    let u' := init (VInt uid) (VStr name) h' s' (VDateTime d) in
    get_user_info u =
      (Ok [ (py "user_id", VInt uid);
            (py "username", VStr name);
            (py "registration_date", VStr (DateTime.isoformat d)) ], u)
    /\ iso8601 (DateTime.isoformat d) = true
    /\ (forall info, fst (get_user_info u) = Ok info ->
          dict_get info (py "hashed_password") = None
          /\ dict_get info (py "salt") = None)
    /\ fst (get_user_info u') = fst (get_user_info u).
Proof.
  intros uid name d h s h' s' u u'.
  split; [reflexivity|]. split; [apply isoformat_iso8601|].
  split; [|reflexivity].
  intros info H. cbv [get_user_info bind get lift call_isoformat ret u init fst
                      _registration_date _user_id _username] in H.
  injection H as <-. split; reflexivity.
Qed.

(** *** Passwords *)

Lemma hash_password_state q u : snd (_hash_password q u) = u.
Proof.
  unfold _hash_password, bind, get, lift, ret.
  destruct (call_encode q); [|reflexivity].
  destruct (call_encode (_salt u)); reflexivity.
Qed.

Lemma verify_password_state q u : snd (verify_password q u) = u.
Proof.
  unfold verify_password, bind, get, ret.
  pose proof (hash_password_state q u) as H.
  destruct (_hash_password q u) as [[v|e] u1]; simpl in *; now subst.
Qed.

Lemma hash_password_ok q qb u salt sb :
  Utf8.encode q = Ok qb -> _salt u = VStr salt -> Utf8.encode salt = Ok sb ->
  _hash_password (VStr q) u = (Ok (VStr (SHA256.hexdigest (qb ++ sb))), u).
Proof.
  intros Hq Hs Hsb. unfold _hash_password, bind, get, lift, ret, call_encode.
  now rewrite Hq, Hs, Hsb.
Qed.

(** *** Serialisation *)

(** C6 (User).  For every user, [to_dict] succeeds and [from_dict] of its
    result raises [AttributeError], whatever the ISO parser is: line 8
    rebinds the global [datetime] from the module to the class, and the
    class has no attribute [datetime]. *)
Theorem from_dict_to_dict_raises :
  forall (fromisoformat : pystr -> res DateTime.datetime)
         (uid : Z) (name h s : pystr) (d : DateTime.datetime),
    let u := init (VInt uid) (VStr name) (VStr h) (VStr s) (VDateTime d) in
    exists data,
      to_dict u = (Ok data, u)
      /\ from_dict fromisoformat data = Raise AttributeError.
Proof.
  intros parse uid name h s d u. eexists. split; reflexivity.
Qed.

(** Had the name kept its first binding (line 2, the module), the round trip
    would reproduce the user for any parser that inverts [isoformat]. *)
Lemma from_dict_to_dict_under_line_2 :
  forall (fromisoformat : pystr -> res DateTime.datetime)
         (uid : Z) (name h s : pystr) (d : DateTime.datetime),
    let u := init (VInt uid) (VStr name) (VStr h) (VStr s) (VDateTime d) in
    fromisoformat (DateTime.isoformat d) = Ok d ->
    forall data, to_dict u = (Ok data, u) ->
    from_dict_in fromisoformat
      (fold_left Namespace.exec (removelast Namespace.imports) []) data = Ok u.
Proof.
  intros parse uid name h s d u Hparse data Hd.
  injection Hd as <-.
  unfold from_dict_in. cbn -[DateTime.isoformat]. now rewrite Hparse.
Qed.

End UserProps.

(** ** Decimal arithmetic *)

Module DecimalFacts.
Import Decimal WalletSpec.

(** [ndigits] counts decimal digits. *)
Lemma ndigits_fuel_spec (fuel : nat) :
  forall n, 0 <= n < 10 * 2 ^ Z.of_nat fuel ->
    let k := ndigits_fuel fuel n in
    1 <= k /\ n < 10 ^ k /\ (k = 1 \/ 10 ^ (k - 1) <= n).
Proof.
  induction fuel as [|fuel IH]; intros n Hn; cbn [ndigits_fuel].
  - change (2 ^ Z.of_nat 0) with 1 in Hn. cbv zeta. split; [lia|]. split; [|now left].
    change (10 ^ 1) with 10. lia.
  - destruct (Z.ltb_spec n 10) as [Hlt|Hge]; cbv zeta.
    + split; [lia|]. split; [|now left]. change (10 ^ 1) with 10. lia.
    + assert (Hq : 0 <= n / 10 < 10 * 2 ^ Z.of_nat fuel).
      { split; [apply Z.div_pos; lia|].
        apply Z.div_lt_upper_bound; [lia|].
        rewrite Nat2Z.inj_succ, Z.pow_succ_r in Hn by lia.
        assert (0 < 2 ^ Z.of_nat fuel) by (apply Z.pow_pos_nonneg; lia). lia. }
      destruct (IH _ Hq) as (Hk & Hu & Hl).
      set (k := ndigits_fuel fuel (n / 10)) in *.
      assert (Hdm := Z.div_mod n 10 ltac:(lia)).
      assert (Hm := Z.mod_pos_bound n 10 ltac:(lia)).
      split; [lia|]. split.
      * replace (1 + k) with (Z.succ k) by lia. rewrite Z.pow_succ_r by lia. lia.
      * right. replace (1 + k - 1) with k by lia.
        destruct Hl as [->|Hl].
        -- change (10 ^ 1) with 10. lia.
        -- replace k with (Z.succ (k - 1)) by lia. rewrite Z.pow_succ_r by lia. lia.
Qed.

Lemma ndigits_spec n :
  0 <= n ->
  1 <= ndigits n /\ n < 10 ^ ndigits n /\ (ndigits n = 1 \/ 10 ^ (ndigits n - 1) <= n).
Proof.
  intros Hn. unfold ndigits. rewrite (Z.abs_eq n) by lia.
  apply ndigits_fuel_spec. split; [lia|].
  rewrite Z2Nat.id by apply Z.log2_nonneg.
  destruct (Z.eq_dec n 0) as [->|Hz]; [vm_compute; reflexivity|].
  assert (H := Z.log2_spec n ltac:(lia)).
  rewrite Z.pow_succ_r in H by apply Z.log2_nonneg. lia.
Qed.

Lemma ndigits_mono a b : 0 <= a <= b -> ndigits a <= ndigits b.
Proof.
  intros [Ha Hab].
  destruct (ndigits_spec Ha) as (Ha1 & _ & [->|Hal]).
  - destruct (@ndigits_spec b ltac:(lia)) as (Hb1 & _). lia.
  - destruct (@ndigits_spec b ltac:(lia)) as (Hb1 & Hbu & _).
    assert (Hlt : 10 ^ (ndigits a - 1) < 10 ^ ndigits b) by lia.
    apply Z.pow_lt_mono_r_iff in Hlt; lia.
Qed.

Lemma ndigits_abs c : ndigits (Z.abs c) = ndigits c.
Proof. unfold ndigits. now rewrite Z.abs_idemp. Qed.

Lemma ndigits_upper n K : 0 <= n < 10 ^ K -> 1 <= K -> ndigits n <= K.
Proof.
  intros [Hn Hlt] HK.
  destruct (ndigits_spec Hn) as (H1 & _ & [->|Hl]); [exact HK|].
  assert (H : 10 ^ (ndigits n - 1) < 10 ^ K) by lia.
  apply Z.pow_lt_mono_r_iff in H; lia.
Qed.

(** A result that fits the context is not rounded. *)
Lemma fix_ctx_fits c e :
  ndigits c <= prec -> Etiny <= e <= Etop -> fix_ctx c e = Ok (DFin c e).
Proof.
  intros Hd He. unfold fix_ctx.
  assert (HE : Etiny = -1000026 /\ Etop = 999972 /\ Emax = 999999 /\ prec = 28)
    by (repeat split; reflexivity).
  destruct HE as (HE1 & HE2 & HE3 & HE4).
  destruct (Z.eqb_spec c 0) as [->|Hc].
  - f_equal. f_equal. lia.
  - cbv zeta. rewrite ndigits_abs.
    destruct (Z.ltb_spec Etop (ndigits c + e - prec)) as [|_]; [lia|].
    destruct (Z.ltb_spec e (Z.max (ndigits c + e - prec) Etiny)) as [|_]; [lia|].
    reflexivity.
Qed.

Lemma round_half_even_nonneg a drop : 0 <= a -> 0 <= round_half_even a drop.
Proof.
  intros Ha. unfold round_half_even.
  assert (Hq : 0 <= a / 10 ^ drop).
  { destruct (Z.eq_dec (10 ^ drop) 0) as [->|Hp]; [now rewrite Z.div_0_r|].
    apply Z.div_pos; [exact Ha|].
    assert (0 <= 10 ^ drop) by (apply Z.pow_nonneg; lia). lia. }
  destruct (2 * (a mod 10 ^ drop) ?= 10 ^ drop); [|lia|lia].
  destruct (Z.even (a / 10 ^ drop)); lia.
Qed.

(** A sum that is not negative and below [10^Emax] is Ok, and not negative. *)
Lemma fix_ctx_nonneg c e :
  0 <= c -> ndigits c + e <= Emax ->
  exists c' e', fix_ctx c e = Ok (DFin c' e') /\ 0 <= c'.
Proof.
  intros Hc Hd. unfold fix_ctx.
  assert (HE : Etiny = -1000026 /\ Etop = 999972 /\ Emax = 999999 /\ prec = 28)
    by (repeat split; reflexivity).
  destruct HE as (HE1 & HE2 & HE3 & HE4).
  destruct (Z.eqb_spec c 0) as [->|Hc0]; [do 2 eexists; split; [reflexivity | lia]|].
  cbv zeta. rewrite ndigits_abs, (Z.abs_eq c) by lia.
  destruct (Z.ltb_spec Etop (ndigits c + e - prec)) as [|_]; [lia|].
  destruct (Z.ltb_spec e (Z.max (ndigits c + e - prec) Etiny)) as [Hr|_];
    [|do 2 eexists; split; [reflexivity | lia]].
  pose proof (round_half_even_nonneg (Z.max (ndigits c + e - prec) Etiny - e) Hc) as Hq.
  set (q := round_half_even c (Z.max (ndigits c + e - prec) Etiny - e)) in *.
  rewrite Z.sgn_pos by lia.
  destruct (prec <? ndigits q).
  - destruct (Z.ltb_spec Etop (Z.max (ndigits c + e - prec) Etiny + 1)) as [|_]; [lia|].
    do 2 eexists; split; [reflexivity|]. rewrite Z.mul_1_l. apply Z.div_pos; lia.
  - destruct (Z.ltb_spec Etop (Z.max (ndigits c + e - prec) Etiny)) as [|_]; [lia|].
    do 2 eexists; split; [reflexivity|]. lia.
Qed.

(** Two decimals compare as their coefficients do over the smaller exponent. *)
Lemma scaled_ltb c1 e1 c2 e2 :
  Ext.ltb (Ext.Fin (Ext.scaled c1 10 e1)) (Ext.Fin (Ext.scaled c2 10 e2))
  = (c1 * 10 ^ (e1 - Z.min e1 e2) <? c2 * 10 ^ (e2 - Z.min e1 e2)).
Proof.
  unfold Ext.ltb, Ext.compare, Qcompare, Ext.scaled, Z.ltb.
  assert (Hpow : forall a b, 0 <= a -> 0 <= b -> 10 ^ (a + b) = 10 ^ a * 10 ^ b)
    by (intros; apply Z.pow_add_r; assumption).
  assert (Hpos : forall a, 0 <= a -> 0 < 10 ^ a) by (intros; apply Z.pow_pos_nonneg; lia).
  assert (Hcmp : forall x y t, 0 < t -> (x * t ?= y * t) = (x ?= y))
    by (intros x y t Ht; symmetry; apply Zmult_compare_compat_r; lia).
  destruct (Z.leb_spec 0 e1) as [H1|H1], (Z.leb_spec 0 e2) as [H2|H2]; cbn [Qnum Qden];
    rewrite ?Z2Pos.id by (apply Hpos; lia); f_equal.
  - rewrite <- (Hcmp (c1 * 10 ^ (e1 - Z.min e1 e2)) (c2 * 10 ^ (e2 - Z.min e1 e2))
                  (10 ^ Z.min e1 e2)) by (apply Hpos; lia).
    rewrite <- !Z.mul_assoc, <- !Hpow, !Z.mul_1_r by lia.
    replace (e1 - Z.min e1 e2 + Z.min e1 e2) with e1 by lia.
    replace (e2 - Z.min e1 e2 + Z.min e1 e2) with e2 by lia. reflexivity.
  - replace (Z.min e1 e2) with e2 by lia.
    replace (e2 - e2) with 0 by lia. rewrite Z.pow_0_r.
    rewrite <- Z.mul_assoc, <- Hpow by lia.
    replace (e1 + - e2) with (e1 - e2) by lia. reflexivity.
  - replace (Z.min e1 e2) with e1 by lia.
    replace (e1 - e1) with 0 by lia. rewrite Z.pow_0_r.
    rewrite <- Z.mul_assoc, <- Hpow by lia.
    replace (e2 + - e1) with (e2 - e1) by lia. reflexivity.
  - rewrite <- (Hcmp (c1 * 10 ^ (e1 - Z.min e1 e2)) (c2 * 10 ^ (e2 - Z.min e1 e2))
                  (10 ^ (- Z.max e1 e2))) by (apply Hpos; lia).
    rewrite <- !Z.mul_assoc, <- !Hpow by lia.
    replace (e1 - Z.min e1 e2 + - Z.max e1 e2) with (- e2) by lia.
    replace (e2 - Z.min e1 e2 + - Z.max e1 e2) with (- e1) by lia. reflexivity.
Qed.

Lemma pow10_pos a : 0 <= a -> 0 < 10 ^ a.
Proof. intros. apply Z.pow_pos_nonneg; lia. Qed.

(** A coefficient moved to a smaller exponent has as many more digits. *)
Lemma aligned_bound c e m :
  0 <= c -> m <= e -> 0 <= c * 10 ^ (e - m) < 10 ^ (ndigits c + e - m).
Proof.
  intros Hc Hm. destruct (ndigits_spec Hc) as (H1 & Hu & _).
  assert (Hp := @pow10_pos (e - m) ltac:(lia)).
  replace (ndigits c + e - m) with (ndigits c + (e - m)) by lia.
  rewrite Z.pow_add_r by lia. nia.
Qed.

(** [a - d] for [0 <= d <= a]: defined, and not negative. *)
Lemma sub_nonneg b dd dk :
  in_range b = true -> 0 <= dd ->
  Num.dec_lt b (VDec (DFin dd dk)) = Ok false ->
  exists s, Decimal.sub b (DFin dd dk) = Ok s /\ nonneg s = true.
Proof.
  intros Hr Hd Hlt. destruct b as [c e|s|s]; cbn [in_range] in Hr; [| |discriminate].
  - unfold Num.dec_lt in Hlt. cbn [Num.exact Decimal.exact rbind] in Hlt.
    injection Hlt as Hlt. rewrite scaled_ltb in Hlt.
    cbn [Decimal.sub Decimal.neg Decimal.add].
    apply Z.ltb_lt in Hr. apply Z.ltb_ge in Hlt.
    set (m := Z.min e dk) in *.
    assert (Hm1 : m <= e) by (unfold m; lia).
    assert (Hm2 : m <= dk) by (unfold m; lia).
    assert (Hp2 := @pow10_pos (dk - m) ltac:(lia)).
    assert (Hp1 := @pow10_pos (e - m) ltac:(lia)).
    assert (Hc : 0 <= c) by nia.
    destruct (aligned_bound Hc Hm1) as [_ Hu].
    destruct (ndigits_spec Hc) as (Hn1 & _).
    destruct (@fix_ctx_nonneg (c * 10 ^ (e - m) + - dd * 10 ^ (dk - m)) m) as (c' & e' & Hf & Hc').
    + nia.
    + assert (ndigits (c * 10 ^ (e - m) + - dd * 10 ^ (dk - m)) <= ndigits c + e - m);
        [apply ndigits_upper; [nia | lia] | lia].
    + exists (DFin c' e'). split; [exact Hf|]. cbn [nonneg]. now apply Z.leb_le.
  - unfold Num.dec_lt in Hlt. cbn [Num.exact Decimal.exact rbind] in Hlt.
    destruct s; [discriminate|].
    exists (DInf false). split; reflexivity.
Qed.

(** The sum of two numbers that are not negative: defined, and not negative. *)
Lemma add_nonneg b d :
  nonneg b = true -> in_range b = true -> nonneg d = true -> in_range d = true ->
  exists s, Decimal.add b d = Ok s /\ nonneg s = true.
Proof.
  intros Hb Rb Hd Rd.
  destruct b as [c1 e1|s1|s1], d as [c2 e2|s2|s2];
    cbn [nonneg in_range negb] in *; try discriminate.
  - cbn [Decimal.add]. apply Z.leb_le in Hb, Hd. apply Z.ltb_lt in Rb, Rd.
    set (m := Z.min e1 e2) in *.
    assert (Hm1 : m <= e1) by (unfold m; lia).
    assert (Hm2 : m <= e2) by (unfold m; lia).
    destruct (aligned_bound Hb Hm1) as [Ha1 Hu1].
    destruct (aligned_bound Hd Hm2) as [Ha2 Hu2].
    destruct (ndigits_spec Hb) as (Hn1 & _). destruct (ndigits_spec Hd) as (Hn2 & _).
    assert (HE : Emax = 999999) by reflexivity.
    assert (Hk1 : 10 ^ (ndigits c1 + e1 - m) <= 10 ^ (Emax - 1 - m))
      by (apply Z.pow_le_mono_r; lia).
    assert (Hk2 : 10 ^ (ndigits c2 + e2 - m) <= 10 ^ (Emax - 1 - m))
      by (apply Z.pow_le_mono_r; lia).
    assert (Hs : 10 ^ (Emax - m) = 10 * 10 ^ (Emax - 1 - m)).
    { replace (Emax - m) with (Z.succ (Emax - 1 - m)) by lia. apply Z.pow_succ_r. lia. }
    destruct (@fix_ctx_nonneg (c1 * 10 ^ (e1 - m) + c2 * 10 ^ (e2 - m)) m) as (c' & e' & Hf & Hc').
    + lia.
    + assert (ndigits (c1 * 10 ^ (e1 - m) + c2 * 10 ^ (e2 - m)) <= Emax - m);
        [apply ndigits_upper; lia | lia].
    + exists (DFin c' e'). split; [exact Hf|]. cbn [nonneg]. now apply Z.leb_le.
  - destruct s2; [discriminate|]. exists (DInf false). split; reflexivity.
  - destruct s1; [discriminate|]. exists (DInf false). split; reflexivity.
  - destruct s1, s2; try discriminate. exists (DInf false). split; reflexivity.
Qed.

(** [repr] of a positive [float] has no sign. *)
Lemma candidate_nonneg even low v high den k d :
  0 <= v -> 0 < den -> PyFloat.candidate even low v high den k = Some d -> 0 <= d.
Proof.
  intros Hv Hden. unfold PyFloat.candidate.
  set (d0 := if 0 <=? k then v / (den * 10 ^ k) else v * 10 ^ (- k) / den).
  assert (H0 : 0 <= d0).
  { unfold d0. destruct (Z.leb_spec 0 k).
    - apply Z.div_pos; [exact Hv|]. assert (0 < 10 ^ k) by (apply pow10_pos; lia). nia.
    - apply Z.div_pos; [|exact Hden]. assert (0 < 10 ^ (- k)) by (apply pow10_pos; lia). nia. }
  cbv zeta.
  repeat match goal with
         | |- context [match ?x with _ => _ end] => destruct x
         end; intros H; try discriminate; injection H as <-; lia.
Qed.

Lemma shortest_nonneg fuel : forall n even low v high den p d k,
  0 <= v -> 0 < den -> PyFloat.shortest fuel n even low v high den p = Some (d, k) -> 0 <= d.
Proof.
  induction fuel as [|fuel IH]; intros n even low v high den p d k Hv Hden; cbn [PyFloat.shortest];
    [discriminate|].
  destruct (PyFloat.candidate even low v high den (p - n + 1)) as [d0|] eqn:Hc.
  - intros H. injection H as <- _. eapply candidate_nonneg; eassumption.
  - apply IH; assumption.
Qed.

Lemma strip_zeros_nonneg fuel : forall d k, 0 <= d -> 0 <= fst (PyFloat.strip_zeros fuel d k).
Proof.
  induction fuel as [|fuel IH]; intros d k Hd; cbn [PyFloat.strip_zeros]; [exact Hd|].
  destruct ((d mod 10 =? 0) && negb (d =? 0)); [|exact Hd].
  apply IH. apply Z.div_pos; lia.
Qed.

Lemma repr_digits_nonneg m e : 0 <= fst (PyFloat.repr_digits m e).
Proof.
  unfold PyFloat.repr_digits.
  assert (Hi : let '(low, v, high, den) := PyFloat.interval m e in 0 <= v /\ 0 < den).
  { unfold PyFloat.interval. cbv zeta. destruct (0 <=? e - 2) eqn:He.
    - apply Z.leb_le in He. assert (0 < 2 ^ (e - 2)) by (apply Z.pow_pos_nonneg; lia).
      split; lia.
    - apply Z.leb_gt in He. split; [lia|]. apply Z.pow_pos_nonneg; lia. }
  destruct (PyFloat.interval m e) as [[[low v] high] den]. destruct Hi as [Hv Hden].
  destruct (PyFloat.shortest 17 1 (Z.even (Z.pos m)) low v high den
              (PyFloat.decimal_exponent m e v den)) as [[d k]|] eqn:Hs.
  - apply strip_zeros_nonneg. eapply shortest_nonneg; eassumption.
  - destruct (Z.leb_spec 0 e); cbn [fst].
    + assert (0 < 2 ^ e) by (apply Z.pow_pos_nonneg; lia). lia.
    + assert (0 < 5 ^ (- e)) by (apply Z.pow_pos_nonneg; lia). lia.
Qed.

Lemma of_float_repr_nonneg f :
  positive_float f = true -> nonneg (of_float_repr f) = true.
Proof.
  destruct f as [s|s| |s m e]; cbn [positive_float]; try discriminate.
  - destruct s; [discriminate | reflexivity].
  - destruct s; [discriminate|]. intros _. cbn [of_float_repr].
    pose proof (repr_digits_nonneg m e) as H.
    destruct (PyFloat.repr_digits m e) as [d k]. cbn [fst] in H.
    destruct ((-4 <? k + ndigits d) && (k + ndigits d <=? 16) && (0 <=? k)) eqn:Hc;
      cbn [nonneg]; apply Z.leb_le; [|exact H].
    apply andb_prop in Hc as [_ Hk]. apply Z.leb_le in Hk.
    assert (0 < 10 ^ (k + 1)) by (apply pow10_pos; lia). nia.
Qed.

(** [Decimal(str(amount))] of a positive number has no sign. *)
Lemma decimal_of_positive amount dd dk :
  Num.is_number amount = true -> Num.le_zero amount = Ok false ->
  Num.decimal_of_str amount = Ok (DFin dd dk) -> 0 <= dd.
Proof.
  destruct amount as [z|f| | | |]; cbn [Num.is_number]; try discriminate; intros _.
  - cbn [Num.le_zero Num.decimal_of_str]. intros Hz.
    destruct (4300 <? ndigits z); [discriminate|]. intros H. injection H as <- _.
    injection Hz as Hz. apply Z.leb_gt in Hz. lia.
  - intros Hz Hd. cbn [Num.decimal_of_str] in Hd. injection Hd as Hd.
    assert (Hp : positive_float f = true).
    { destruct f as [s|s| |s m e]; cbn [Num.le_zero] in Hz; cbn [of_float_repr] in Hd;
        try discriminate.
      injection Hz as ->. reflexivity. }
    apply of_float_repr_nonneg in Hp. rewrite Hd in Hp. now apply Z.leb_le in Hp.
Qed.

End DecimalFacts.

(** ** Wallet *)

Module WalletProps.
Import Decimal Wallet WalletSpec DecimalFacts.

Lemma scaled_compare_zero c e :
  Qcompare (Ext.scaled c 10 e) (inject_Z 0) = Z.compare c 0.
Proof.
  unfold Ext.scaled, Qcompare, inject_Z. destruct (0 <=? e) eqn:He; cbn [Qnum Qden].
  - apply Z.leb_le in He.
    assert (Hp : 0 < 10 ^ e) by (apply Z.pow_pos_nonneg; lia).
    rewrite Z.mul_1_r. simpl (0 * _).
    destruct (Z.compare_spec c 0) as [->|Hc|Hc].
    + reflexivity.
    + apply Z.compare_lt_iff. nia.
    + apply Z.compare_gt_iff. nia.
  - now rewrite Z.mul_1_r.
Qed.

Lemma dec_lt_zero d :
  Num.dec_lt d (VInt 0) =
  match d with
  | DNaN _ => Raise InvalidOperation
  | _ => Ok (negb (nonneg d))
  end.
Proof.
  destruct d as [c e|s|s]; unfold Num.dec_lt; simpl.
  - unfold Ext.ltb, Ext.compare. rewrite scaled_compare_zero.
    destruct (Z.compare_spec c 0) as [->|Hc|Hc]; simpl.
    + reflexivity.
    + destruct (Z.leb_spec 0 c); [lia | reflexivity].
    + destruct (Z.leb_spec 0 c); [reflexivity | lia].
  - now destruct s.
  - reflexivity.
Qed.

(** What the setter does with a [Decimal]. *)
Lemma balance_setter_dec d w :
  balance_setter (VDec d) w =
  match d with
  | DNaN _ => (Raise InvalidOperation, w)
  | _ => if nonneg d then (Ok tt, mkWallet (currency_code w) d)
         else (Raise (ValueError (py "Баланс не может быть отрицательным")), w)
  end.
Proof.
  unfold balance_setter, bind, lift, except_value_or_type. cbn [Num.decimal_of_str].
  rewrite dec_lt_zero. destruct d as [c e|s|s]; try reflexivity;
    destruct (nonneg _); reflexivity.
Qed.

Lemma balance_setter_cases v w r w' :
  balance_setter v w = (r, w') ->
  (r = Ok tt /\ exists d, Num.decimal_of_str v = Ok d /\ nonneg d = true
                          /\ w' = mkWallet (currency_code w) d)
  \/ (exists e, r = Raise e /\ w' = w).
Proof.
  unfold balance_setter, bind, lift.
  destruct (Num.decimal_of_str v) as [d|e] eqn:Hd; simpl.
  - rewrite dec_lt_zero. destruct d as [c x|s|s].
    + destruct (nonneg (DFin c x)) eqn:Hn; simpl; intros H; injection H as <- <-.
      * left. split; [reflexivity|]. exists (DFin c x). auto.
      * right. eauto.
    + destruct (nonneg (DInf s)) eqn:Hn; simpl; intros H; injection H as <- <-.
      * left. split; [reflexivity|]. exists (DInf s). auto.
      * right. eauto.
    + intros H; injection H as <- <-. right. eauto.
  - destruct (is_ValueError e || is_TypeError e); intros H; injection H as <- <-;
      right; eauto.
Qed.

Lemma le_zero_number amount :
  Num.is_number amount = true -> exists b, Num.le_zero amount = Ok b.
Proof.
  destruct amount as [z|f|d|s| |d]; try discriminate; intros _; simpl; eauto.
  destruct f; eauto.
Qed.

Lemma deposit_cases amount w r w' :
  deposit amount w = (r, w') ->
  (r = Ok tt /\ exists d s,
      Num.decimal_of_str amount = Ok d /\ Decimal.add (balance w) d = Ok s
      /\ nonneg s = true /\ w' = mkWallet (currency_code w) s)
  \/ (exists e, r = Raise e /\ w' = w).
Proof.
  unfold deposit.
  destruct (Num.is_number amount); cbn [negb];
    [|intros H; injection H as <- <-; right; eauto].
  unfold bind at 1, lift.
  destruct (Num.le_zero amount) as [[|]|e];
    try (intros H; injection H as <- <-; right; eauto; fail).
  unfold bind, get, lift.
  destruct (Num.decimal_of_str amount) as [d|e];
    [|intros H; injection H as <- <-; right; eauto].
  destruct (Decimal.add (balance w) d) as [s|e] eqn:Hs;
    [|intros H; injection H as <- <-; right; eauto].
  rewrite balance_setter_dec.
  destruct s as [c x|b|b]; [| |intros H; injection H as <- <-; right; eauto];
    (destruct (nonneg _) eqn:Hn; intros H; injection H as <- <-;
     [left; split; [reflexivity|]; do 2 eexists; eauto | right; eauto]).
Qed.

Lemma withdraw_cases amount w r w' :
  withdraw amount w = (r, w') ->
  (r = Ok tt /\ exists d s,
      Num.dec_lt (balance w) amount = Ok false
      /\ Num.decimal_of_str amount = Ok d /\ Decimal.sub (balance w) d = Ok s
      /\ nonneg s = true /\ w' = mkWallet (currency_code w) s)
  \/ (exists e, r = Raise e /\ w' = w).
Proof.
  unfold withdraw.
  destruct (Num.is_number amount); cbn [negb];
    [|intros H; injection H as <- <-; right; eauto].
  unfold bind at 1, lift.
  destruct (Num.le_zero amount) as [[|]|e];
    try (intros H; injection H as <- <-; right; eauto; fail).
  unfold bind at 1, get. unfold bind at 1, lift.
  destruct (Num.dec_lt (balance w) amount) as [[|]|e] eqn:Hlt;
    try (intros H; injection H as <- <-; right; eauto; fail).
  unfold bind, lift.
  destruct (Num.decimal_of_str amount) as [d|e];
    [|intros H; injection H as <- <-; right; eauto].
  destruct (Decimal.sub (balance w) d) as [s|e] eqn:Hs;
    [|intros H; injection H as <- <-; right; eauto].
  rewrite balance_setter_dec.
  destruct s as [c x|b|b]; [| |intros H; injection H as <- <-; right; eauto];
    (destruct (nonneg _) eqn:Hn; intros H; injection H as <- <-;
     [left; split; [reflexivity|]; do 2 eexists; eauto | right; eauto]).
Qed.

Lemma withdraw_ok amount w w' :
  withdraw amount w = (Ok tt, w') ->
  Num.is_number amount = true /\ Num.le_zero amount = Ok false
  /\ Num.dec_lt (balance w) amount = Ok false
  /\ exists d, Num.decimal_of_str amount = Ok d
               /\ Decimal.sub (balance w) d = Ok (balance w')
               /\ currency_code w' = currency_code w.
Proof.
  intros H. destruct (withdraw_cases _ _ H) as [(_ & d & s & Hlt & Hd & Hs & _ & ->)|(e & He & _)];
    [|discriminate].
  revert H. unfold withdraw.
  destruct (Num.is_number amount); cbn [negb]; [|discriminate].
  unfold bind at 1, lift.
  destruct (Num.le_zero amount) as [[|]|e]; try discriminate.
  intros _. repeat split; eauto.
Qed.

Lemma deposit_ok amount w w' :
  deposit amount w = (Ok tt, w') ->
  Num.is_number amount = true /\ Num.le_zero amount = Ok false
  /\ exists d, Num.decimal_of_str amount = Ok d
               /\ Decimal.add (balance w) d = Ok (balance w')
               /\ currency_code w' = currency_code w.
Proof.
  intros H. destruct (deposit_cases _ _ H) as [(_ & d & s & Hd & Hs & _ & ->)|(e & He & _)];
    [|discriminate].
  revert H. unfold deposit.
  destruct (Num.is_number amount); cbn [negb]; [|discriminate].
  unfold bind at 1, lift.
  destruct (Num.le_zero amount) as [[|]|e]; try discriminate.
  intros _. repeat split; eauto.
Qed.

(** A failed call leaves the wallet as it was. *)
Lemma deposit_failure_keeps amount w e w' :
  deposit amount w = (Raise e, w') -> w' = w.
Proof.
  intros H. destruct (deposit_cases _ _ H) as [[? _]|(? & _ & ?)]; [discriminate | assumption].
Qed.

Lemma withdraw_failure_keeps amount w e w' :
  withdraw amount w = (Raise e, w') -> w' = w.
Proof.
  intros H. destruct (withdraw_cases _ _ H) as [[? _]|(? & _ & ?)]; [discriminate | assumption].
Qed.

Lemma balance_setter_failure_keeps v w e w' :
  balance_setter v w = (Raise e, w') -> w' = w.
Proof.
  intros H. destruct (balance_setter_cases _ _ H) as [[? _]|(? & _ & ?)]; [discriminate | assumption].
Qed.

Lemma run_call_nonneg c w w' :
  run_call c w = (Ok tt, w') -> nonneg (balance w') = true.
Proof.
  destruct c as [a|a]; simpl; intros H.
  - destruct (deposit_cases _ _ H) as [(_ & d & s & _ & _ & Hn & ->)|(e & He & _)];
      [exact Hn | discriminate].
  - destruct (withdraw_cases _ _ H) as [(_ & d & s & _ & _ & _ & Hn & ->)|(e & He & _)];
      [exact Hn | discriminate].
Qed.

(** After successful calls the balance is not negative, when it was not
    negative before or when there was at least one call. *)
Lemma successful_calls_nonneg cs w w' :
  nonneg (balance w) = true \/ cs <> [] ->
  all_succeed cs w = Some w' ->
  nonneg (balance w') = true.
Proof.
  revert w. induction cs as [|c cs IH]; intros w Hstart; simpl.
  - intros H. injection H as <-. destruct Hstart as [H|H]; [exact H | now elim H].
  - destruct (run_call c w) as [[[]|e] w1] eqn:Hc; [|discriminate].
    apply IH. left. exact (run_call_nonneg _ _ Hc).
Qed.

(** A withdrawal of more than the balance fails with a [ValueError] and
    leaves the wallet as it was. *)
Lemma withdraw_exceeding_fails amount w :
  Num.is_number amount = true ->
  Num.dec_lt (balance w) amount = Ok true ->
  exists msg, withdraw amount w = (Raise (ValueError msg), w).
Proof.
  intros Hn Hlt. unfold withdraw. rewrite Hn. cbn [negb].
  destruct (le_zero_number _ Hn) as [b Hb].
  unfold bind at 1, lift. rewrite Hb. destruct b; [eexists; reflexivity|].
  unfold bind at 1, get. unfold bind at 1, lift. rewrite Hlt.
  eexists; reflexivity.
Qed.

(** C5.  [__init__] converts its [balance] argument and stores it without
    the check the setter makes: [Wallet("BTC", -0.05)] is a wallet whose
    balance is [-0.05], below zero, before any call is made. *)
Theorem init_accepts_negative_balance :
  let w := mkWallet (VStr (py "BTC")) (DFin (-5) (-2)) in
  Wallet.init (VStr (py "BTC")) (VFloat (PyFloat.literal (-5) 100)) = Ok w
  /\ Num.dec_lt (balance w) (VInt 0) = Ok true
  /\ all_succeed [] w = Some w.
Proof.
  split; [vm_compute; reflexivity|].
  split; [vm_compute; reflexivity | reflexivity].
Qed.

Lemma btc_scenario :
  Wallet.init (VStr (py "BTC")) (VFloat (PyFloat.literal 5 100)) = Ok (btc 5)
  /\ deposit (VFloat (PyFloat.literal 1 10)) (btc 5) = (Ok tt, btc 15)
  /\ withdraw (VFloat (PyFloat.literal 5 100)) (btc 15) = (Ok tt, btc 10)
  /\ withdraw (VFloat (PyFloat.literal 1 1)) (btc 10)
     = (Raise (ValueError (py "Недостаточно средств для снятия")), btc 10).
Proof.
  split; [vm_compute; reflexivity|].
  split; [vm_compute; reflexivity|].
  split; vm_compute; reflexivity.
Qed.

(** *** The setter *)

Lemma parse_raises s e : Num.parse s = Raise e -> e = InvalidOperation.
Proof.
  unfold Num.parse. destruct (Num.sign_of _) as [neg r].
  destruct (Num.finite_part neg r); [discriminate|].
  destruct (Num.special_part neg r); [discriminate|]. congruence.
Qed.

(** The message of the [except] clause is reached by one kind of value
    only, an [int] of more than 4300 digits. *)
Lemma must_be_number_only_for_long_int v w w' :
  balance_setter v w = (Raise (ValueError (py "Баланс должен быть числом")), w') ->
  exists z, v = VInt z /\ 4300 < ndigits z.
Proof.
  assert (Hmsg : ValueError (py "Баланс не может быть отрицательным")
                 <> ValueError (py "Баланс должен быть числом")).
  { intros H. vm_compute in H. discriminate. }
  assert (Hstore : forall d,
            (negative <- lift (Num.dec_lt d (VInt 0)) ;;
             if negative then raise (ValueError (py "Баланс не может быть отрицательным"))
             else w0 <- get ;; put (mkWallet (currency_code w0) d)) w
            <> (Raise (ValueError (py "Баланс должен быть числом")), w')).
  { intros d H. unfold bind, lift in H. rewrite dec_lt_zero in H.
    destruct d as [c x|b|b]; [| |cbv beta iota in H; congruence];
      (destruct (negb _); cbv beta iota delta [raise bind get put] in H;
       [apply Hmsg; congruence | congruence]). }
  unfold balance_setter. unfold bind at 1, lift at 1.
  destruct v as [z|f|d|s| |d]; cbn [Num.decimal_of_str].
  - destruct (Z.ltb_spec 4300 (ndigits z)) as [Hz|Hz]; [eauto|].
    cbn [except_value_or_type]. intros H. now apply Hstore in H.
  - cbn [except_value_or_type]. intros H. now apply Hstore in H.
  - cbn [except_value_or_type]. intros H. now apply Hstore in H.
  - destruct (Num.parse s) as [d|e] eqn:Hp.
    + cbn [except_value_or_type]. intros H. now apply Hstore in H.
    + apply parse_raises in Hp as ->. discriminate.
  - discriminate.
  - discriminate.
Qed.

(** C9.  Assigning a [str] that is no number, here ["abc"], raises
    [decimal.InvalidOperation]: the [except (ValueError, TypeError)] clause
    of the setter does not catch it, so the failure is not the validation
    error the clause was written to raise.  The balance is left as it
    was. *)
Theorem balance_setter_non_numeric :
  forall w : Wallet,
    balance_setter (VStr (py "abc")) w = (Raise InvalidOperation, w)
    /\ is_ValueError InvalidOperation = false
    /\ balance_setter VNone w = (Raise InvalidOperation, w).
Proof.
  intros w. repeat split.
Qed.

(** The parts of the setter that hold: a negative value is refused with a
    [ValueError], a value that is not negative is stored, and no failure
    changes the wallet. *)
Lemma balance_setter_validates v d w :
  Num.decimal_of_str v = Ok d ->
  (nonneg d = true -> balance_setter v w = (Ok tt, mkWallet (currency_code w) d))
  /\ (Num.dec_lt d (VInt 0) = Ok true ->
      exists msg, balance_setter v w = (Raise (ValueError msg), w)).
Proof.
  intros Hd. unfold balance_setter, bind, lift. rewrite Hd.
  cbn [except_value_or_type]. split.
  - intros Hn. rewrite dec_lt_zero.
    destruct d as [c x|b|b]; [| |discriminate]; now rewrite Hn.
  - intros ->. eexists; reflexivity.
Qed.

(** *** Serialisation *)

(** [to_dict] writes the balance as the nearest [float], and [from_dict]
    reads that [float] back through its [repr]: the wallet comes back with
    its code and with the balance rounded to a double. *)
Lemma from_dict_to_dict_rounds w f :
  Decimal.to_float (balance w) = Ok f ->
  exists data,
    to_dict w = (Ok data, w)
    /\ from_dict data = Ok (mkWallet (currency_code w) (of_float_repr f)).
Proof.
  intros Hf. unfold to_dict, bind, get, lift, ret. rewrite Hf.
  eexists. split; reflexivity.
Qed.

(** A balance of 0.15 comes back as it was; one of 28 digits does not. *)
Lemma from_dict_to_dict_examples :
  let long := mkWallet (VStr (py "BTC")) (DFin 1000000000000000000000000001 (-28)) in
  let record f := [ (py "currency_code", VStr (py "BTC")); (py "balance", VFloat f) ] in
  to_dict (btc 15) = (Ok (record (PyFloat.literal 15 100)), btc 15)
  /\ from_dict (record (PyFloat.literal 15 100)) = Ok (btc 15)
  /\ to_dict long = (Ok (record (PyFloat.literal 1 10)), long)
  /\ from_dict (record (PyFloat.literal 1 10)) = Ok (mkWallet (VStr (py "BTC")) (DFin 1 (-1))).
Proof.
  intros long record.
  split; [vm_compute; reflexivity|].
  split; [vm_compute; reflexivity|].
  split; vm_compute; reflexivity.
Qed.

(** When [withdraw] succeeds: a positive number that exceeds the balance
    neither as it is nor as [Decimal(str(amount))]. *)
Lemma withdraw_succeeds amount w dd dk :
  in_range (balance w) = true ->
  Num.is_number amount = true ->
  Num.le_zero amount = Ok false ->
  Num.dec_lt (balance w) amount = Ok false ->
  Num.decimal_of_str amount = Ok (DFin dd dk) ->
  Num.dec_lt (balance w) (VDec (DFin dd dk)) = Ok false ->
  exists s,
    Decimal.sub (balance w) (DFin dd dk) = Ok s
    /\ nonneg s = true
    /\ withdraw amount w = (Ok tt, mkWallet (currency_code w) s).
Proof.
  intros Hr Hn Hz Hle Hd Hle'.
  assert (H0 : 0 <= dd) by (eapply decimal_of_positive; eassumption).
  destruct (@sub_nonneg _ dd dk Hr H0 Hle') as (s & Hs & Hnn).
  exists s. split; [exact Hs|]. split; [exact Hnn|].
  unfold withdraw, bind, lift, get. rewrite Hn. cbn [negb]. rewrite Hz. cbn [negb].
  rewrite Hle. cbn [negb]. rewrite Hd, Hs.
  rewrite balance_setter_dec. destruct s; cbn [nonneg] in *; try discriminate; rewrite ?Hnn; reflexivity.
Qed.

(** When [deposit] succeeds: a positive [float] onto a balance that is not
    negative. *)
Lemma deposit_succeeds f w :
  nonneg (balance w) = true -> in_range (balance w) = true ->
  positive_float f = true -> in_range (of_float_repr f) = true ->
  exists s,
    Decimal.add (balance w) (of_float_repr f) = Ok s
    /\ nonneg s = true
    /\ deposit (VFloat f) w = (Ok tt, mkWallet (currency_code w) s).
Proof.
  intros Hb Rb Hf Rf.
  destruct (@add_nonneg _ _ Hb Rb (@of_float_repr_nonneg _ Hf) Rf) as (s & Hs & Hnn).
  exists s. split; [exact Hs|]. split; [exact Hnn|].
  assert (Hz : Num.le_zero (VFloat f) = Ok false).
  { destruct f as [u|u| |u m e]; cbn [positive_float] in Hf; try discriminate;
      destruct u; try discriminate; reflexivity. }
  unfold deposit, bind, lift, get. cbn [Num.is_number negb]. rewrite Hz.
  cbn [Num.decimal_of_str].
  rewrite Hs, balance_setter_dec.
  destruct s; cbn [nonneg] in *; try discriminate; rewrite ?Hnn; reflexivity.
Qed.

End WalletProps.

(** ** Portfolio *)

Module PortfolioProps.
Import Decimal Wallet Portfolio WalletSpec PortfolioSpec WalletProps.

Section DictFacts.

Context {V : Type}.
Implicit Types (d : dict V) (k : pystr) (v : V).

Lemma dict_get_set_same d k v : dict_get (dict_set d k v) k = Some v.
Proof.
  induction d as [|[k' v'] d IH]; simpl.
  - now rewrite pystr_eqb_refl.
  - destruct (pystr_eqb k' k) eqn:E; simpl; now rewrite E.
Qed.

Lemma dict_get_set_other d k k' v :
  k' <> k -> dict_get (dict_set d k v) k' = dict_get d k'.
Proof.
  intros Hne. induction d as [|[k0 v0] d IH]; simpl.
  - rewrite pystr_eqb_neq; [reflexivity | congruence].
  - destruct (pystr_eqb k0 k) eqn:E; simpl.
    + apply pystr_eqb_eq in E as ->.
      rewrite pystr_eqb_neq; [reflexivity | congruence].
    + destruct (pystr_eqb k0 k'); [reflexivity | exact IH].
Qed.

Lemma dict_set_absent d k v : dict_get d k = None -> dict_set d k v = d ++ [(k, v)].
Proof.
  induction d as [|[k' v'] d IH]; simpl; [reflexivity|].
  destruct (pystr_eqb k' k); [discriminate|]. intros H. now rewrite IH.
Qed.

Lemma dict_set_get_same d k v : dict_get d k = Some v -> dict_set d k v = d.
Proof.
  induction d as [|[k' v'] d IH]; simpl; [discriminate|].
  destruct (pystr_eqb k' k) eqn:E.
  - intros H. injection H as <-. reflexivity.
  - intros H. now rewrite IH.
Qed.

Lemma dict_get_In d k v : dict_get d k = Some v -> In (k, v) d.
Proof.
  induction d as [|[k' v'] d IH]; simpl; [discriminate|].
  destruct (pystr_eqb k' k) eqn:E.
  - apply pystr_eqb_eq in E as ->. intros H. injection H as <-. now left.
  - intros H. right. now apply IH.
Qed.

End DictFacts.

Lemma wf_init uid : wf (init uid).
Proof. constructor. Qed.

Lemma wf_get p k w :
  wf p -> get_wallet k p = Some w ->
  currency_code w = VStr k /\ dict_in EXCHANGE_RATES k = true.
Proof.
  intros Hwf Hg. apply dict_get_In in Hg.
  unfold wf in Hwf. rewrite Forall_forall in Hwf. exact (Hwf _ Hg).
Qed.

Lemma Forall_dict_set {V} (P : pystr * V -> Prop) (d : dict V) k v :
  Forall P d -> P (k, v) -> (forall k' v', P (k', v') -> pystr_eqb k' k = true -> P (k', v)) ->
  Forall P (dict_set d k v).
Proof.
  intros Hd Hkv Hrep. induction Hd as [|[k' v'] d Hx Hd IH]; simpl.
  - now constructor.
  - destruct (pystr_eqb k' k) eqn:E; constructor; eauto.
Qed.

Lemma add_currency_cases code p :
  add_currency code p =
  if dict_in (_wallets p) code then
    (Raise (ValueError (py "Кошелёк для валюты " ++ code ++ py " уже существует")), p)
  else if dict_in EXCHANGE_RATES code then
    (Ok tt, mkPortfolio (_user_id p)
              (_wallets p ++ [(code, mkWallet (VStr code) (DFin 0 (-1)))]))
  else (Raise (ValueError (py "Неизвестный код валюты " ++ code)), p).
Proof.
  unfold add_currency, bind, get.
  destruct (dict_in (_wallets p) code) eqn:Hin; [reflexivity|].
  destruct (dict_in EXCHANGE_RATES code); [|reflexivity].
  cbn [negb lift put]. unfold init_default.
  change (Wallet.init (VStr code) (VFloat PyFloat.zero))
    with (Ok (mkWallet (VStr code) (DFin 0 (-1)))).
  unfold put.
  unfold dict_in in Hin. destruct (dict_get (_wallets p) code) eqn:Hg; [discriminate|].
  now rewrite (dict_set_absent _ _ _ Hg).
Qed.

Lemma wf_add_currency code p r p' :
  wf p -> add_currency code p = (r, p') -> wf p'.
Proof.
  intros Hwf. rewrite add_currency_cases.
  destruct (dict_in (_wallets p) code); [intros H; now injection H as <- <-|].
  destruct (dict_in EXCHANGE_RATES code) eqn:Hr; intros H; injection H as <- <-;
    [|exact Hwf].
  unfold wf. cbn [_wallets]. apply Forall_app. split; [exact Hwf|].
  constructor; [|constructor]. now split.
Qed.

(** *** [add_currency] *)

Lemma count_absent {V} (d : dict V) code :
  dict_get d code = None ->
  List.filter (fun kw => pystr_eqb (fst kw) code) d = [].
Proof.
  induction d as [|[k v] d IH]; simpl; [reflexivity|].
  destruct (pystr_eqb k code); [discriminate | exact IH].
Qed.

(** C8.  [add_currency(code)] fails with a [ValueError], leaving the
    portfolio as it was, when a wallet for [code] exists and when [code] is
    not in the rate table; otherwise it succeeds and the mapping gains one
    entry, a wallet for [code] with balance [0.0], after which exactly one
    wallet is stored under [code] and a second [add_currency(code)] fails
    and changes nothing. *)
Theorem add_currency_once :
  forall (p : Portfolio) (code : pystr),
    (dict_in (_wallets p) code = true ->
       exists msg, add_currency code p = (Raise (ValueError msg), p))
    /\ (dict_in EXCHANGE_RATES code = false ->
          exists msg, add_currency code p = (Raise (ValueError msg), p))
    /\ (dict_in (_wallets p) code = false -> dict_in EXCHANGE_RATES code = true ->
          let p' := mkPortfolio (_user_id p)
                      (_wallets p ++ [(code, mkWallet (VStr code) (DFin 0 (-1)))]) in
          add_currency code p = (Ok tt, p')
          /\ get_wallet code p' = Some (mkWallet (VStr code) (DFin 0 (-1)))
          /\ count_wallets code p' = 1%nat
          /\ (exists msg, add_currency code p' = (Raise (ValueError msg), p'))
          /\ (forall k, k <> code -> get_wallet k p' = get_wallet k p)).
Proof.
  intros p code. rewrite add_currency_cases. split; [|split].
  - intros ->. eauto.
  - intros ->. destruct (dict_in (_wallets p) code); eauto.
  - intros Hin Hr p'. rewrite Hin, Hr.
    assert (Hg : dict_get (_wallets p) code = None).
    { unfold dict_in in Hin. now destruct (dict_get (_wallets p) code). }
    assert (Hw : _wallets p' = dict_set (_wallets p) code (mkWallet (VStr code) (DFin 0 (-1)))).
    { symmetry. now apply dict_set_absent. }
    assert (Hget : get_wallet code p' = Some (mkWallet (VStr code) (DFin 0 (-1)))).
    { unfold get_wallet. rewrite Hw. apply dict_get_set_same. }
    split; [reflexivity|]. split; [exact Hget|]. split; [|split].
    + unfold count_wallets, p'. cbn [_wallets]. rewrite filter_app, (count_absent _ _ Hg).
      simpl. now rewrite pystr_eqb_refl.
    + rewrite add_currency_cases. unfold dict_in at 1.
      unfold get_wallet in Hget. rewrite Hget. eauto.
    + intros k Hk. unfold get_wallet. rewrite Hw. now apply dict_get_set_other.
Qed.

(** Adding USD to an empty portfolio, twice. *)
Lemma add_currency_once_witness :
  let p := init (VInt 1) in
  let p' := mkPortfolio (VInt 1) [(py "USD", mkWallet (VStr (py "USD")) (DFin 0 (-1)))] in
  add_currency (py "USD") p = (Ok tt, p')
  /\ count_wallets (py "USD") p' = 1%nat
  /\ exists msg, add_currency (py "USD") p' = (Raise (ValueError msg), p').
Proof.
  intros p p'.
  destruct (add_currency_once p (py "USD")) as (_ & _ & H).
  destruct (H eq_refl eq_refl) as (H1 & _ & H2 & H3 & _).
  split; [exact H1|]. split; [exact H2 | exact H3].
Defined.

(** *** [get_total_value] *)

(** C1.  With a base currency of the rate table, [get_total_value] returns
    [0.0] for a portfolio without wallets and raises [TypeError] for every
    other portfolio: the first wallet's balance is a [Decimal], its rate a
    [float], and Python does not multiply the two.  A base currency outside
    the table raises [ValueError]. *)
Theorem get_total_value_raises_type_error :
  forall (p : Portfolio) (base : pystr),
    wf p ->
    get_total_value base p =
      if dict_in EXCHANGE_RATES base then
        match _wallets p with
        | [] => (Ok PyFloat.zero, p)
        | _ :: _ => (Raise TypeError, p)
        end
      else (Raise (ValueError (py "Неизвестный код базовой валюты " ++ base)), p).
Proof.
  intros p base Hwf. unfold get_total_value.
  destruct (dict_in EXCHANGE_RATES base) eqn:Hb; [|reflexivity].
  cbn [negb]. unfold bind, get, lift.
  destruct (_wallets p) as [|[k w] ws] eqn:Hws; [reflexivity|].
  unfold wf in Hwf. rewrite Hws in Hwf. inversion Hwf as [|x l [Hc Hr] _]; subst.
  cbn [List.map snd fst total_loop] in *. rewrite Hc. cbn [rate_of rbind].
  unfold dict_in in Hr, Hb.
  destruct (dict_get EXCHANGE_RATES k); [|discriminate].
  destruct (dict_get EXCHANGE_RATES base); [|discriminate].
  reflexivity.
Qed.

(** A portfolio holding one USD wallet. *)
Lemma get_total_value_raises_type_error_witness :
  let p := mkPortfolio (VInt 1) [(py "USD", mkWallet (VStr (py "USD")) (DFin 0 (-1)))] in
  add_currency (py "USD") (init (VInt 1)) = (Ok tt, p)
  /\ get_total_value (py "USD") p = (Raise TypeError, p)
  /\ get_total_value (py "USD") (init (VInt 1)) = (Ok PyFloat.zero, init (VInt 1)).
Proof.
  intros p.
  assert (Hwf : wf p).
  { exact (wf_add_currency (py "USD") (wf_init (VInt 1)) eq_refl). }
  split; [reflexivity|]. split.
  - exact (get_total_value_raises_type_error (py "USD") Hwf).
  - exact (get_total_value_raises_type_error (py "USD") (wf_init (VInt 1))).
Defined.

(** *** Wallet objects inside a portfolio *)

Lemma get_set_wallet_same p k w : get_wallet k (set_wallet p k w) = Some w.
Proof. apply dict_get_set_same. Qed.

Lemma get_set_wallet_other p k k' w :
  k' <> k -> get_wallet k' (set_wallet p k w) = get_wallet k' p.
Proof. apply dict_get_set_other. Qed.

Lemma set_wallet_same p k w : get_wallet k p = Some w -> set_wallet p k w = p.
Proof.
  intros H. unfold set_wallet. rewrite (dict_set_get_same _ _ H). now destruct p.
Qed.

Lemma on_wallet_found {A} k (m : M Wallet A) p w :
  get_wallet k p = Some w ->
  on_wallet k m p = (fst (m w), set_wallet p k (snd (m w))).
Proof.
  unfold on_wallet, get_wallet. intros ->. now destruct (m w).
Qed.

Lemma wf_set_wallet p k w w' :
  wf p -> get_wallet k p = Some w -> currency_code w' = currency_code w ->
  wf (set_wallet p k w').
Proof.
  intros Hwf Hg Hc. destruct (wf_get _ Hwf Hg) as [Hk Hr].
  unfold wf, set_wallet. cbn [_wallets]. apply Forall_dict_set.
  - exact Hwf.
  - split; [cbn [snd fst]; congruence | exact Hr].
  - intros k' v' [_ Hr'] E. apply pystr_eqb_eq in E as ->.
    split; [cbn [snd fst]; congruence | exact Hr].
Qed.

(** *** [buy_currency] *)

Lemma usd_eur_built :
  exists p1 p2,
    add_currency (py "USD") (init (VInt 1)) = (Ok tt, p1)
    /\ add_currency (py "EUR") p1 = (Ok tt, p2)
    /\ on_wallet (py "USD") (deposit (VInt 100)) p2 = (Ok tt, usd_eur 1000 0 (-1)).
Proof.
  do 2 eexists. split; [reflexivity|]. split; [reflexivity|].
  vm_compute. reflexivity.
Qed.

Lemma wf_usd_eur a b c : wf (usd_eur a b c).
Proof. repeat constructor. Qed.

Lemma usd_short_built :
  exists p1 p2,
    add_currency (py "USD") (init (VInt 1)) = (Ok tt, p1)
    /\ add_currency (py "EUR") p1 = (Ok tt, p2)
    /\ on_wallet (py "USD") (balance_setter (VStr (py "0.29999999999999999"))) p2
       = (Ok tt, usd_short).
Proof.
  do 2 eexists. split; [reflexivity|]. split; [reflexivity|].
  vm_compute. reflexivity.
Qed.

(** C2, counterexamples.  With [from_code = to_code] the two wallets are one
    object: [buy_currency(50, "USD", "USD")] on {USD: 100, EUR: 0} withdraws
    50 and deposits [50 * 1.0 / 1.0] into the same wallet, which ends at 100
    and not at 50.  With two codes the call still fails on amounts within
    the balance: on {USD: 0.29999999999999999, EUR: 0} the float [0.3] is
    below the balance and [Decimal('0.3')] is above it, so the withdrawal
    raises; on {USD: 5E-324, BTC: 0} the amount [5e-324] converts to [0.0],
    which [deposit] refuses. *)
Lemma buy_currency_counterexamples :
  ~ buy_claim
  /\ (Num.dec_lt (DFin 29999999999999999 (-17)) (VFloat (PyFloat.literal 3 10)) = Ok false
      /\ buy_currency (VFloat (PyFloat.literal 3 10)) (py "USD") (py "EUR") usd_short
         = (Raise (ValueError (py "Баланс не может быть отрицательным")), usd_short))
  /\ (Num.dec_lt (DFin 5 (-324)) (VFloat tiny) = Ok false
      /\ buy_currency (VFloat tiny) (py "USD") (py "BTC") (usd_btc 5 (-324))
         = (Raise (ValueError (py "Сумма пополнения должна быть положительной")),
            usd_btc 0 (-324))).
Proof.
  split; [|split; split; vm_compute; reflexivity].
  intros H.
  destruct (H (usd_eur 1000 0 (-1)) (VInt 50) (py "USD") (py "USD")
              (usd 1000) (usd 1000) (wf_usd_eur _ _ _) eq_refl eq_refl eq_refl eq_refl)
    as (p' & wf' & wt' & d & c & dc & Hbuy & Hf & Ht & Hd & Hsub & _);
    [vm_compute; reflexivity|].
  assert (Hp : p' = usd_eur 1000 0 (-1)).
  { vm_compute in Hbuy. now injection Hbuy as <-. }
  subst p'. vm_compute in Hf. injection Hf as <-.
  vm_compute in Hd. injection Hd as <-.
  vm_compute in Hsub. discriminate.
Qed.

Lemma buy_steps amount from_code to_code p w_from w_to w_from' c :
  get_wallet from_code p = Some w_from ->
  get_wallet to_code p = Some w_to ->
  withdraw amount w_from = (Ok tt, w_from') ->
  converted amount from_code to_code = Ok c ->
  buy_currency amount from_code to_code p
  = on_wallet to_code (deposit c) (set_wallet p from_code w_from').
Proof.
  intros Hf Ht Hw Hc. destruct (withdraw_ok _ _ Hw) as (_ & Hpos & _).
  unfold buy_currency. unfold bind at 1, lift at 1. rewrite Hpos.
  unfold bind at 1, get. rewrite Hf, Ht.
  unfold bind at 1. rewrite (on_wallet_found _ _ _ Hf), Hw. cbn [fst snd].
  revert Hc. unfold converted, bind, lift.
  destruct (getitem EXCHANGE_RATES from_code) as [rf|]; [|discriminate].
  destruct (getitem EXCHANGE_RATES to_code) as [rt|]; [|discriminate].
  cbn [rbind]. destruct (Num.mul_float amount rf) as [x|]; [|discriminate].
  cbn [rbind]. now intros ->.
Qed.

(** C2, amended.  Two different codes whose wallets exist, with balances in
    the range of the context and the second not negative; an [int] or
    [float] amount that is positive and exceeds the first balance neither
    as it is, compared exactly, nor as [Decimal(str(amount))], a finite
    decimal; a conversion [amount * rate[from] / rate[to]] that is a
    positive [float] [c]: then [buy_currency] succeeds, the first wallet's
    balance becomes its balance minus [Decimal(str(amount))], the second
    wallet's its balance plus [Decimal(str(c))], both in the context's
    arithmetic, and every other wallet is left as it was. *)
Theorem buy_currency_distinct :
  forall p amount from_code to_code w_from w_to dd dk c,
    from_code <> to_code ->
    get_wallet from_code p = Some w_from ->
    get_wallet to_code p = Some w_to ->
    in_range (balance w_from) = true ->
    in_range (balance w_to) = true ->
    nonneg (balance w_to) = true ->
    Num.is_number amount = true ->
    Num.le_zero amount = Ok false ->
    Num.dec_lt (balance w_from) amount = Ok false ->
    Num.decimal_of_str amount = Ok (DFin dd dk) ->
    Num.dec_lt (balance w_from) (VDec (DFin dd dk)) = Ok false ->
    converted amount from_code to_code = Ok (VFloat c) ->
    positive_float c = true ->
    in_range (of_float_repr c) = true ->
    exists s s' p',
      Decimal.sub (balance w_from) (DFin dd dk) = Ok s
      /\ Decimal.add (balance w_to) (of_float_repr c) = Ok s'
      /\ buy_currency amount from_code to_code p = (Ok tt, p')
      /\ get_wallet from_code p' = Some (mkWallet (currency_code w_from) s)
      /\ get_wallet to_code p' = Some (mkWallet (currency_code w_to) s')
      /\ (forall k, k <> from_code -> k <> to_code -> get_wallet k p' = get_wallet k p).
Proof.
  intros p amount f t wf_ wt dd dk c Hne Hf Ht Rf Rt Nt Hn Hz Hle Hd Hle' Hc Hpos Rc.
  destruct (@withdraw_succeeds _ _ _ _ Rf Hn Hz Hle Hd Hle') as (s & Hs & _ & Hw).
  destruct (@deposit_succeeds _ _ Nt Rt Hpos Rc) as (s' & Hs' & _ & Hdep).
  exists s, s',
    (set_wallet (set_wallet p f (mkWallet (currency_code wf_) s)) t
       (mkWallet (currency_code wt) s')).
  assert (Ht1 : get_wallet t (set_wallet p f (mkWallet (currency_code wf_) s)) = Some wt).
  { rewrite get_set_wallet_other; [exact Ht | congruence]. }
  split; [exact Hs|]. split; [exact Hs'|]. split.
  { rewrite (@buy_steps _ _ _ _ _ _ _ _ Hf Ht Hw Hc), (on_wallet_found _ _ _ Ht1), Hdep.
    reflexivity. }
  split.
  { rewrite get_set_wallet_other; [apply get_set_wallet_same | exact Hne]. }
  split; [apply get_set_wallet_same|].
  intros k Hkf Hkt. now rewrite !get_set_wallet_other.
Qed.

(** The spec's scenario: {USD: 100, EUR: 0}, [buy_currency(50, "USD",
    "EUR")] leaves 50.0 in the USD wallet and 45.45454545454545 in the EUR
    wallet. *)
Lemma buy_currency_distinct_witness :
  exists p',
    buy_currency (VInt 50) (py "USD") (py "EUR") (usd_eur 1000 0 (-1)) = (Ok tt, p')
    /\ get_wallet (py "USD") p' = Some (usd 500)
    /\ get_wallet (py "EUR") p' = Some (eur 4545454545454545 (-14)).
Proof.
  assert (Hne : py "USD" <> py "EUR") by (intros H; vm_compute in H; discriminate).
  assert (Hc : converted (VInt 50) (py "USD") (py "EUR")
               = Ok (VFloat (S754_finite false 6397158561605818 (-47))))
    by (vm_compute; reflexivity).
  destruct (@buy_currency_distinct (usd_eur 1000 0 (-1)) (VInt 50) (py "USD") (py "EUR")
              (usd 1000) (eur 0 (-1)) 50 0 _ Hne eq_refl eq_refl
              eq_refl eq_refl eq_refl eq_refl eq_refl eq_refl eq_refl eq_refl Hc eq_refl eq_refl)
    as (s & s' & p' & Hs & Hs' & Hb & Hf & Ht & _).
  vm_compute in Hs. injection Hs as <-.
  vm_compute in Hs'. injection Hs' as <-.
  exists p'. split; [exact Hb|]. split; [exact Hf | exact Ht].
Defined.

(** *** [sell_currency] *)

(** C3, counterexample.  [sell_currency(30, "USD", "USD")] on {USD: 100,
    EUR: 0} succeeds and leaves 70 in the USD wallet, which is the
    destination wallet too: its balance did change. *)
Lemma sell_currency_same_code : ~ sell_claim.
Proof.
  intros H.
  destruct (H (usd_eur 1000 0 (-1)) (VInt 30) (py "USD") (py "USD")
              (usd 1000) (usd 1000) (DFin 30 0) (usd_eur 700 0 (-1))
              (wf_usd_eur _ _ _) eq_refl eq_refl eq_refl)
    as (wf' & wt' & Hf & Ht & Hsub & Hto).
  - vm_compute. reflexivity.
  - vm_compute in Ht. injection Ht as <-. vm_compute in Hto. discriminate.
Qed.

Lemma sell_steps amount from_code to_code p w_from w_to w_from' :
  wf p ->
  get_wallet from_code p = Some w_from ->
  get_wallet to_code p = Some w_to ->
  withdraw amount w_from = (Ok tt, w_from') ->
  sell_currency amount from_code to_code p = (Ok tt, set_wallet p from_code w_from').
Proof.
  intros Hwf Hf Ht Hw. destruct (withdraw_ok _ _ Hw) as (_ & Hpos & Hlt & _).
  unfold sell_currency. unfold bind at 1, lift at 1. rewrite Hpos.
  unfold bind at 1, get. rewrite Hf, Ht.
  unfold bind at 1, lift at 1. rewrite Hlt.
  unfold bind at 1. rewrite (on_wallet_found _ _ _ Hf), Hw. cbn [fst snd].
  destruct (wf_get _ Hwf Hf) as [_ Hr]. unfold bind, lift, getitem.
  unfold dict_in in Hr. now destruct (dict_get EXCHANGE_RATES from_code).
Qed.

(** C3, amended.  A successful [sell_currency(amount, from, to)] found a
    positive amount that does not exceed the balance of the [from] wallet,
    set that balance to the balance minus [Decimal(str(amount))], and left
    every wallet stored under another code as it was: nothing is deposited,
    and the [to] wallet is unchanged when [to] differs from [from]. *)
Theorem sell_currency_only_withdraws :
  forall p amount from_code to_code p',
    sell_currency amount from_code to_code p = (Ok tt, p') ->
    exists w_from w_from' d,
      get_wallet from_code p = Some w_from
      /\ Num.le_zero amount = Ok false
      /\ Num.dec_lt (balance w_from) amount = Ok false
      /\ Num.decimal_of_str amount = Ok d
      /\ Decimal.sub (balance w_from) d = Ok (balance w_from')
      /\ get_wallet from_code p' = Some w_from'
      /\ (forall k, k <> from_code -> get_wallet k p' = get_wallet k p).
Proof.
  intros p amount f t p'. unfold sell_currency.
  unfold bind at 1, lift at 1.
  destruct (Num.le_zero amount) as [[|]|e] eqn:Hpos; try discriminate.
  unfold bind at 1, get.
  destruct (get_wallet f p) as [wf_|] eqn:Hf; [|discriminate].
  destruct (get_wallet t p) as [wt|] eqn:Ht; [|discriminate].
  unfold bind at 1, lift at 1.
  destruct (Num.dec_lt (balance wf_) amount) as [[|]|e] eqn:Hlt; try discriminate.
  unfold bind at 1. rewrite (on_wallet_found _ _ _ Hf).
  destruct (withdraw amount wf_) as [[[]|e] wf'] eqn:Hw; cbn [fst snd]; [|discriminate].
  unfold bind, lift.
  destruct (getitem EXCHANGE_RATES f); [|discriminate].
  intros H. injection H as <-.
  destruct (withdraw_ok _ _ Hw) as (_ & _ & _ & d & Hd & Hs & _).
  exists wf_, wf', d. repeat split; auto.
  - apply get_set_wallet_same.
  - intros k Hk. now apply get_set_wallet_other.
Qed.

(** [sell_currency(30, "USD", "EUR")] on {USD: 100, EUR: 0}. *)
Lemma sell_currency_only_withdraws_witness :
  sell_currency (VInt 30) (py "USD") (py "EUR") (usd_eur 1000 0 (-1))
    = (Ok tt, usd_eur 700 0 (-1))
  /\ exists w_from w_from' d,
       get_wallet (py "USD") (usd_eur 1000 0 (-1)) = Some w_from
       /\ Num.decimal_of_str (VInt 30) = Ok d
       /\ Decimal.sub (balance w_from) d = Ok (balance w_from')
       /\ get_wallet (py "USD") (usd_eur 700 0 (-1)) = Some w_from'
       /\ get_wallet (py "EUR") (usd_eur 700 0 (-1))
          = get_wallet (py "EUR") (usd_eur 1000 0 (-1)).
Proof.
  assert (H : sell_currency (VInt 30) (py "USD") (py "EUR") (usd_eur 1000 0 (-1))
              = (Ok tt, usd_eur 700 0 (-1))) by (vm_compute; reflexivity).
  split; [exact H|].
  destruct (sell_currency_only_withdraws _ _ _ _ H)
    as (w & w' & d & H1 & _ & _ & H2 & H3 & H4 & H5).
  exists w, w', d. repeat split; auto.
Defined.

(** *** Failed operations *)

Lemma wf_usd_btc c e : wf (usd_btc c e).
Proof. repeat constructor. Qed.

Lemma usd_btc_built :
  exists p1 p2,
    add_currency (py "USD") (init (VInt 1)) = (Ok tt, p1)
    /\ add_currency (py "BTC") p1 = (Ok tt, p2)
    /\ on_wallet (py "USD") (deposit (VFloat tiny)) p2 = (Ok tt, usd_btc 5 (-324))
    /\ on_wallet (py "USD") (deposit (VInt (10 ^ 400))) p2 = (Ok tt, usd_btc (10 ^ 27) 373).
Proof.
  do 2 eexists. split; [reflexivity|]. split; [reflexivity|].
  split; vm_compute; reflexivity.
Qed.

(** C4, counterexample.  On {USD: 5E-324, BTC: 0}, [buy_currency(5e-324,
    "USD", "BTC")] withdraws the amount, converts it to
    [5e-324 * 1.0 / 40000.0], which is [0.0], and fails in [deposit] with
    the [ValueError] for a non-positive amount: the call failed and the USD
    wallet is left at zero. *)
Lemma buy_currency_fails_after_withdrawal : ~ failure_claim.
Proof.
  intros H.
  assert (Hbuy : buy_currency (VFloat tiny) (py "USD") (py "BTC") (usd_btc 5 (-324))
                 = (Raise (ValueError (py "Сумма пополнения должна быть положительной")),
                    usd_btc 0 (-324))) by (vm_compute; reflexivity).
  apply H in Hbuy; [|apply wf_usd_btc|reflexivity].
  discriminate Hbuy.
Qed.

(** Likewise [buy_currency(10**400, "USD", "BTC")] on a USD balance of
    1E+400: the withdrawal succeeds and [amount * from_rate] raises
    [OverflowError]. *)
Lemma buy_currency_overflows_after_withdrawal :
  buy_currency (VInt (10 ^ 400)) (py "USD") (py "BTC") (usd_btc (10 ^ 27) 373)
  = (Raise OverflowError, usd_btc 0 0).
Proof. vm_compute. reflexivity. Qed.

Lemma buy_refused p amount from_code to_code :
  Num.is_number amount = true -> refused amount from_code to_code p ->
  exists msg, buy_currency amount from_code to_code p = (Raise (ValueError msg), p).
Proof.
  intros Hn Hr. destruct (le_zero_number _ Hn) as [b Hb].
  unfold buy_currency. unfold bind at 1, lift at 1. rewrite Hb.
  destruct b; [eexists; reflexivity|].
  unfold bind at 1, get.
  destruct (get_wallet from_code p) as [w|] eqn:Hf; [|eexists; reflexivity].
  destruct (get_wallet to_code p) as [wt|] eqn:Ht; [|eexists; reflexivity].
  destruct Hr as [Hr|[Hr|[Hr|(w0 & Hw0 & Hlt)]]]; try congruence.
  assert (w0 = w) by congruence. subst w0.
  destruct (withdraw_exceeding_fails _ _ Hn Hlt) as [msg Hw].
  unfold bind at 1. rewrite (on_wallet_found _ _ _ Hf), Hw. cbn [fst snd].
  rewrite (set_wallet_same _ _ Hf). eauto.
Qed.

Lemma sell_refused p amount from_code to_code :
  Num.is_number amount = true -> refused amount from_code to_code p ->
  exists msg, sell_currency amount from_code to_code p = (Raise (ValueError msg), p).
Proof.
  intros Hn Hr. destruct (le_zero_number _ Hn) as [b Hb].
  unfold sell_currency. unfold bind at 1, lift at 1. rewrite Hb.
  destruct b; [eexists; reflexivity|].
  unfold bind at 1, get.
  destruct (get_wallet from_code p) as [w|] eqn:Hf; [|eexists; reflexivity].
  destruct (get_wallet to_code p) as [wt|] eqn:Ht; [|eexists; reflexivity].
  destruct Hr as [Hr|[Hr|[Hr|(w0 & Hw0 & Hlt)]]]; try congruence.
  assert (w0 = w) by congruence. subst w0.
  unfold bind at 1, lift at 1. rewrite Hlt. eexists; reflexivity.
Qed.

Lemma sell_failure_keeps p amount from_code to_code e p' :
  wf p -> sell_currency amount from_code to_code p = (Raise e, p') -> p' = p.
Proof.
  intros Hwf. unfold sell_currency. unfold bind at 1, lift at 1.
  destruct (Num.le_zero amount) as [[|]|e0]; try (intros H; now injection H as _ <-).
  unfold bind at 1, get.
  destruct (get_wallet from_code p) as [w|] eqn:Hf; [|intros H; now injection H as _ <-].
  destruct (get_wallet to_code p) as [wt|] eqn:Ht; [|intros H; now injection H as _ <-].
  unfold bind at 1, lift at 1.
  destruct (Num.dec_lt (balance w) amount) as [[|]|e0];
    try (intros H; now injection H as _ <-).
  unfold bind at 1. rewrite (on_wallet_found _ _ _ Hf).
  destruct (withdraw amount w) as [[[]|e0] w'] eqn:Hw; cbn [fst snd].
  - destruct (wf_get _ Hwf Hf) as [_ Hr]. unfold bind, lift, getitem.
    unfold dict_in in Hr. destruct (dict_get EXCHANGE_RATES from_code); discriminate.
  - apply withdraw_failure_keeps in Hw as ->.
    rewrite (set_wallet_same _ _ Hf). intros H; now injection H as _ <-.
Qed.

Lemma add_currency_failure_keeps p code e p' :
  add_currency code p = (Raise e, p') -> p' = p /\ is_ValueError e = true.
Proof.
  rewrite add_currency_cases.
  destruct (dict_in (_wallets p) code); [intros H; injection H as <- <-; auto|].
  destruct (dict_in EXCHANGE_RATES code); [discriminate|].
  intros H; injection H as <- <-; auto.
Qed.

(** C4, amended.  On a portfolio built by [add_currency] and the wallet
    methods, [buy_currency] and [sell_currency] called with a number that
    is not positive, or with a wallet missing, or with an amount above the
    balance of the source wallet, raise [ValueError] and leave the
    portfolio as it was; every failed [sell_currency] and every failed
    [add_currency] leaves it as it was. *)
Theorem refused_operations_keep_state :
  forall p : Portfolio,
    wf p ->
    (forall amount from_code to_code,
        Num.is_number amount = true -> refused amount from_code to_code p ->
        (exists msg, buy_currency amount from_code to_code p = (Raise (ValueError msg), p))
        /\ (exists msg, sell_currency amount from_code to_code p = (Raise (ValueError msg), p)))
    /\ (forall amount from_code to_code e p',
          sell_currency amount from_code to_code p = (Raise e, p') -> p' = p)
    /\ (forall code e p',
          add_currency code p = (Raise e, p') -> p' = p /\ is_ValueError e = true).
Proof.
  intros p Hwf. split; [|split].
  - intros amount f t Hn Hr. split; [now apply buy_refused | now apply sell_refused].
  - intros amount f t e p'. now apply sell_failure_keeps.
  - intros code e p'. apply add_currency_failure_keeps.
Qed.

(** The scenario of the spec, [buy_currency] with an amount of zero, and
    the other refusals on {USD: 100, EUR: 0}. *)
Lemma refused_operations_keep_state_witness :
  let p := usd_eur 1000 0 (-1) in
  (exists msg, buy_currency (VInt 0) (py "USD") (py "EUR") p = (Raise (ValueError msg), p))
  /\ (exists msg, sell_currency (VInt 500) (py "USD") (py "EUR") p = (Raise (ValueError msg), p))
  /\ (exists msg, buy_currency (VInt 5) (py "USD") (py "BTC") p = (Raise (ValueError msg), p)).
Proof.
  intros p.
  destruct (refused_operations_keep_state (wf_usd_eur 1000 0 (-1))) as (H & _ & _).
  assert (R1 : refused (VInt 0) (py "USD") (py "EUR") p) by (left; reflexivity).
  assert (R2 : refused (VInt 500) (py "USD") (py "EUR") p).
  { right; right; right. exists (usd 1000). split; [reflexivity | vm_compute; reflexivity]. }
  assert (R3 : refused (VInt 5) (py "USD") (py "BTC") p) by (right; right; left; reflexivity).
  destruct (H (VInt 0) (py "USD") (py "EUR") eq_refl R1) as [B1 _].
  destruct (H (VInt 500) (py "USD") (py "EUR") eq_refl R2) as [_ S2].
  destruct (H (VInt 5) (py "USD") (py "BTC") eq_refl R3) as [B3 _].
  exact (conj B1 (conj S2 B3)).
Defined.

End PortfolioProps.

(** * Further properties *)

(** ** User *)

Module UserLaws.
Import User UserSpec LawsSpec UserProps.

Lemma hexdigit_is_hex x : 0 <= x < 16 -> is_hex (SHA256.hexdigit x) = true.
Proof.
  intros Hx. unfold SHA256.hexdigit, is_hex.
  destruct (Z.ltb_spec x 10).
  - apply orb_true_iff; left. apply andb_true_iff; split; apply N.leb_le; lia.
  - apply orb_true_iff; right. apply andb_true_iff; split; apply N.leb_le; lia.
Qed.

Lemma hexword_hex n x : forallb is_hex (SHA256.hexword n x) = true.
Proof.
  induction n as [|n IH]; [reflexivity|].
  cbn [SHA256.hexword forallb]. rewrite IH, hexdigit_is_hex; [reflexivity|].
  apply Z.mod_pos_bound. lia.
Qed.

Lemma hexword_length n x : List.length (SHA256.hexword n x) = n.
Proof. induction n as [|n IH]; [reflexivity|]. cbn [SHA256.hexword List.length]. now rewrite IH. Qed.

Lemma hexdigest_shape msg :
  List.length (SHA256.hexdigest msg) = 64%nat
  /\ forallb is_hex (SHA256.hexdigest msg) = true.
Proof.
  unfold SHA256.hexdigest. generalize (SHA256.digest msg). intros r.
  cbn [List.map List.concat]. split.
  - rewrite !length_app, !hexword_length. reflexivity.
  - rewrite !forallb_app, !hexword_hex. reflexivity.
Qed.

(** X1.  The [username] setter refuses a falsy value (the empty string, [None],
    zero) with [ValueError] and leaves the user as it was; any other value
    replaces the username and nothing else: the same passwords verify, and
    [get_user_info] shows the new name with the old identifier and date. *)
Theorem username_setter_renames :
  forall (u : User) (v : value),
    if truthy v then
      let u' := set_username u v in
      username_setter v u = (Ok tt, u')
      /\ _username u' = v
      /\ (forall q, verify_password q u' = (fst (verify_password q u), u'))
      /\ (forall d, _registration_date u = VDateTime d ->
            get_user_info u' =
              (Ok [ (py "user_id", _user_id u); (py "username", v);
                    (py "registration_date", VStr (DateTime.isoformat d)) ], u'))
    else
      username_setter v u
      = (Raise (ValueError (py "Имя пользователя не может быть пустым")), u).
Proof.
  intros u v. unfold username_setter. destruct (truthy v); cbn [negb]; [|reflexivity].
  split; [reflexivity|]. split; [reflexivity|]. split.
  - intros q. destruct u as [i n h s d]. unfold verify_password, _hash_password, bind, get, lift, ret.
    cbn [_salt _hashed_password set_username].
    destruct (call_encode q); [|reflexivity]. destruct (call_encode s); reflexivity.
  - intros d Hd. unfold get_user_info, bind, get, lift, ret.
    cbn [_registration_date _user_id _username set_username]. now rewrite Hd.
Qed.

(** X2.  [from_dict] never returns a user.  It raises [KeyError] when one of
    the keys [user_id], [username], [hashed_password], [salt] is missing, and
    [AttributeError] for every other dictionary, whatever its
    [registration_date] entry and whatever [fromisoformat] would do. *)
Theorem from_dict_never_returns :
  forall (fromisoformat : pystr -> res DateTime.datetime) (data : dict value),
    from_dict fromisoformat data =
      if dict_in data (py "user_id") && dict_in data (py "username")
         && dict_in data (py "hashed_password") && dict_in data (py "salt")
      then Raise AttributeError
      else Raise KeyError.
Proof.
  intros parse data. unfold from_dict, from_dict_in, getitem, dict_in.
  destruct (dict_get data (py "user_id")); [|reflexivity].
  destruct (dict_get data (py "username")); [|reflexivity].
  destruct (dict_get data (py "hashed_password")); [|reflexivity].
  destruct (dict_get data (py "salt")); reflexivity.
Qed.

(** X3.  [change_password] changes the stored hash and nothing else, so
    [get_user_info] answers the same before and after; when it does not
    succeed the user is left as it was, and a [str] of fewer than four code
    points is refused with [ValueError]. *)
Theorem change_password_touches_hash_only :
  forall (u : User) (p : value),
    let r := fst (change_password p u) in
    let u' := snd (change_password p u) in
    _user_id u' = _user_id u
    /\ _username u' = _username u
    /\ _salt u' = _salt u
    /\ _registration_date u' = _registration_date u
    /\ get_user_info u' = (fst (get_user_info u), u')
    /\ (r <> Ok tt -> u' = u)
    /\ (forall s, p = VStr s -> (List.length s < 4)%nat ->
          change_password p u
          = (Raise (ValueError (py "Пароль должен содержать минимум 4 символа")), u)).
Proof.
  intros u p.
  assert (Hcases : change_password p u = (fst (change_password p u), u)
                   \/ exists h, change_password p u = (Ok tt, set_hashed_password u h)).
  { unfold change_password, bind, lift. destruct (len p) as [n|e]; [|now left].
    destruct (n <? 4); [now left|].
    pose proof (hash_password_state p u) as Hs.
    destruct (_hash_password p u) as [[h|e] u1]; cbn [snd] in Hs; subst u1.
    - right. exists h. reflexivity.
    - now left. }
  cbv zeta. destruct Hcases as [H|[h H]].
  - rewrite H. cbn [fst snd]. repeat split; try reflexivity.
    + unfold get_user_info, bind, get, lift, ret.
      now destruct (call_isoformat (_registration_date u)).
    + intros s -> Hlen. unfold change_password, bind, lift, len.
      destruct (Z.ltb_spec (Z.of_nat (List.length s)) 4); [reflexivity | lia].
  - rewrite H. cbn [fst snd]. destruct u as [i n h0 s d].
    repeat split; try reflexivity.
    + unfold get_user_info, bind, get, lift, ret. cbn. now destruct (call_isoformat d).
    + intros Hr. now elim Hr.
    + intros s0 -> Hlen. exfalso. revert H. unfold change_password, bind, lift, len.
      destruct (Z.ltb_spec (Z.of_nat (List.length s0)) 4); [discriminate | lia].
Qed.

(** X4.  After a successful [change_password(p)] the stored hash is a [str]
    of 64 lowercase hexadecimal digits, and [verify_password(p)] is true. *)
Theorem stored_hash_is_sha256_hex :
  forall (u : User) (p : value) (u' : User),
    change_password p u = (Ok tt, u') ->
    exists h,
      _hashed_password u' = VStr h
      /\ List.length h = 64%nat
      /\ forallb is_hex h = true
      /\ verify_password p u' = (Ok true, u').
Proof.
  intros u p u'. unfold change_password, bind, lift.
  destruct (len p) as [n|e]; [|discriminate].
  destruct (n <? 4); [discriminate|].
  unfold _hash_password at 1, bind, get, lift, ret.
  destruct (call_encode p) as [pb|] eqn:Hp; [|discriminate].
  destruct (call_encode (_salt u)) as [sb|] eqn:Hs; [|discriminate].
  unfold put. intros H. injection H as <-.
  exists (SHA256.hexdigest (pb ++ sb)).
  destruct (hexdigest_shape (pb ++ sb)) as [Hl Hh].
  repeat split; auto.
  destruct u as [i n0 h0 s d]. unfold verify_password, _hash_password, bind, get, lift, ret.
  cbn [_salt _hashed_password set_hashed_password] in *.
  rewrite Hp, Hs. unfold set_hashed_password.
  cbn [_hashed_password _user_id _username _salt _registration_date str_eq].
  now rewrite pystr_eqb_refl.
Qed.

Lemma stored_hash_is_sha256_hex_witness :
  exists u' h,
    change_password (VStr (py "securepass")) (alice epoch) = (Ok tt, u')
    /\ _hashed_password u' = VStr h
    /\ List.length h = 64%nat.
Proof.
  pose (u' := set_hashed_password (alice epoch)
                (VStr (py "ca775b69d8c8b2bd4afd9d965653853a43d51da2a73f5e2d190e5098408dbc22"))).
  assert (H : change_password (VStr (py "securepass")) (alice epoch) = (Ok tt, u'))
    by (vm_compute; reflexivity).
  destruct (stored_hash_is_sha256_hex _ _ H) as (h & H1 & H2 & _).
  exists u', h. auto.
Defined.

(** X5.  A user whose stored hash is not a [str] of 64 code points, such as
    the empty hash a user is created with, has no password:
    [verify_password] never returns true. *)
Theorem malformed_hash_verifies_nothing :
  forall (u : User) (q : value) (b : bool),
    (forall h, _hashed_password u = VStr h -> List.length h <> 64%nat) ->
    fst (verify_password q u) = Ok b ->
    b = false.
Proof.
  intros u q b Hlen. unfold verify_password, bind, get, ret.
  unfold _hash_password, bind, get, lift, ret.
  destruct (call_encode q) as [qb|]; [|discriminate].
  destruct (call_encode (_salt u)) as [sb|]; [|discriminate].
  cbn [fst]. intros H. injection H as <-.
  unfold str_eq. destruct (_hashed_password u) as [| | |h| |] eqn:Hh; try reflexivity.
  destruct (pystr_eqb (SHA256.hexdigest (qb ++ sb)) h) eqn:E; [|reflexivity].
  apply pystr_eqb_eq in E. subst h.
  elim (Hlen _ eq_refl). apply hexdigest_shape.
Qed.

Lemma malformed_hash_verifies_nothing_witness :
  fst (verify_password (VStr (py "securepass")) (alice epoch)) = Ok false.
Proof.
  assert (Hlen : forall h, _hashed_password (alice epoch) = VStr h -> List.length h <> 64%nat).
  { intros h H. injection H as <-. discriminate. }
  destruct (fst (verify_password (VStr (py "securepass")) (alice epoch))) as [b|e] eqn:E.
  - now rewrite (malformed_hash_verifies_nothing _ _ Hlen E).
  - vm_compute in E. discriminate.
Defined.

(** X6.  [to_dict] and [get_user_info] succeed on the same users, those whose
    registration date is a [datetime], and raise [AttributeError] on the
    others; [to_dict] then holds every entry of [get_user_info] and, beside
    them, the hash and the salt. *)
Theorem to_dict_extends_get_user_info :
  forall u : User,
    match _registration_date u with
    | VDateTime d =>
        exists info data,
          get_user_info u = (Ok info, u)
          /\ to_dict u = (Ok data, u)
          /\ (forall k v, dict_get info k = Some v -> dict_get data k = Some v)
          /\ dict_get data (py "hashed_password") = Some (_hashed_password u)
          /\ dict_get data (py "salt") = Some (_salt u)
          /\ List.length data = 5%nat
    | _ =>
        get_user_info u = (Raise AttributeError, u)
        /\ to_dict u = (Raise AttributeError, u)
    end.
Proof.
  intros u. unfold get_user_info, to_dict, bind, get, lift, ret.
  destruct (_registration_date u) as [| | | | |d]; cbn [call_isoformat]; try (split; reflexivity).
  do 2 eexists. split; [reflexivity|]. split; [reflexivity|].
  split; [|repeat split].
  intros k v. cbn [dict_get].
  destruct (pystr_eqb (py "user_id") k) eqn:E1; [auto|].
  destruct (pystr_eqb (py "username") k) eqn:E2.
  { apply pystr_eqb_eq in E2. subst k. auto. }
  destruct (pystr_eqb (py "registration_date") k) eqn:E3; [|discriminate].
  apply pystr_eqb_eq in E3. subst k. auto.
Qed.

(** What [encode('utf-8')] refuses, it refuses with [UnicodeEncodeError]. *)
Lemma encode_cp_raises c :
  (c <? 1114112)%N && negb (Utf8.surrogate c) = false ->
  Utf8.encode_cp c = Raise UnicodeEncodeError.
Proof.
  unfold Utf8.encode_cp, Utf8.surrogate. intros H.
  destruct (N.ltb_spec c 1114112) as [H1|H1]; cbn [andb] in H.
  - apply negb_false_iff, andb_true_iff in H as [Ha Hb].
    apply N.leb_le in Ha, Hb. rewrite (proj2 (N.leb_le _ _) Ha), (proj2 (N.leb_le _ _) Hb).
    destruct (N.ltb_spec c 128); [lia|]. destruct (N.ltb_spec c 2048); [lia|].
    destruct (N.ltb_spec c 65536); [reflexivity | lia].
  - destruct (N.ltb_spec c 128); [lia|]. destruct (N.ltb_spec c 2048); [lia|].
    destruct (N.ltb_spec c 65536); [lia | reflexivity].
Qed.

Lemma encode_cp_outcome c :
  (exists b, Utf8.encode_cp c = Ok b) \/ Utf8.encode_cp c = Raise UnicodeEncodeError.
Proof.
  destruct ((c <? 1114112)%N && negb (Utf8.surrogate c)) eqn:H.
  - left. now apply Utf8Facts.encode_cp_ok.
  - right. now apply encode_cp_raises.
Qed.

Lemma encode_raises s :
  Utf8.encodable s = false -> Utf8.encode s = Raise UnicodeEncodeError.
Proof.
  induction s as [|c s IH]; cbn [Utf8.encodable forallb Utf8.encode]; [discriminate|].
  intros H. apply andb_false_iff in H as [H|H].
  - now rewrite (encode_cp_raises _ H).
  - destruct (encode_cp_outcome c) as [[b ->]| ->]; [|reflexivity].
    cbn [rbind]. now rewrite (IH H).
Qed.

(** X20.  For a user whose salt is a UTF-8 encodable [str] and an encodable
    password [p] of at least four code points, [change_password(p)] succeeds
    and [verify_password(p)] is then true.  On that user [verify_password]
    returns a boolean for every encodable candidate, raises
    [UnicodeEncodeError] for every other [str] (one with a lone surrogate),
    and leaves the user as it is either way. *)
Theorem encodable_passwords_verify :
  forall (u : User) (p salt : pystr),
    _salt u = VStr salt -> Utf8.encodable salt = true ->
    Utf8.encodable p = true -> (4 <= List.length p)%nat ->
    exists h,
      let u' := set_hashed_password u (VStr h) in
      change_password (VStr p) u = (Ok tt, u')
      /\ verify_password (VStr p) u' = (Ok true, u')
      /\ forall q,
           if Utf8.encodable q
           then exists b, verify_password (VStr q) u' = (Ok b, u')
           else verify_password (VStr q) u' = (Raise UnicodeEncodeError, u').
Proof.
  intros u p salt Hs Hse Hpe Hlen.
  destruct (Utf8Facts.encode_ok _ Hse) as [sb Hsb].
  destruct (Utf8Facts.encode_ok _ Hpe) as [pb Hpb].
  exists (SHA256.hexdigest (pb ++ sb)). cbv zeta.
  set (u' := set_hashed_password u (VStr (SHA256.hexdigest (pb ++ sb)))).
  assert (Hs' : _salt u' = VStr salt) by exact Hs.
  split; [|split].
  - unfold change_password, bind, lift, len.
    destruct (Z.ltb_spec (Z.of_nat (List.length p)) 4) as [Hlt|_]; [lia|].
    rewrite (hash_password_ok p u Hpb Hs Hsb). reflexivity.
  - unfold verify_password, bind.
    rewrite (hash_password_ok p u' Hpb Hs' Hsb).
    unfold get, ret, u'. cbn [_hashed_password set_hashed_password str_eq].
    now rewrite pystr_eqb_refl.
  - intros q. destruct (Utf8.encodable q) eqn:Hq.
    + destruct (Utf8Facts.encode_ok _ Hq) as [qb Hqb].
      unfold verify_password, bind. rewrite (hash_password_ok q u' Hqb Hs' Hsb).
      eexists. reflexivity.
    + unfold verify_password, _hash_password, bind, get, lift, call_encode.
      now rewrite (encode_raises _ Hq).
Qed.

Lemma encodable_passwords_verify_witness :
  exists u',
    change_password (VStr (py "securepass")) (alice epoch) = (Ok tt, u')
    /\ verify_password (VStr (py "securepass")) u' = (Ok true, u')
    /\ (exists b, verify_password (VStr (py "wrongpass")) u' = (Ok b, u'))
    /\ verify_password (VStr [55296%N]) u' = (Raise UnicodeEncodeError, u').
Proof.
  destruct (@encodable_passwords_verify (alice epoch) (py "securepass") (py "x5T9!")
              eq_refl eq_refl eq_refl ltac:(cbn; lia))
    as (h & Hc & Hv & Hq).
  eexists. split; [exact Hc|]. split; [exact Hv|]. split.
  - exact (Hq (py "wrongpass")).
  - exact (Hq [55296%N]).
Defined.

End UserLaws.

(** ** Wallet *)

Module WalletLaws.
Import Decimal Wallet WalletSpec LawsSpec DecimalFacts WalletProps.

Lemma run_mutation_ok m w w' :
  run_mutation m w = (Ok tt, w') ->
  currency_code w' = currency_code w /\ nonneg (balance w') = true.
Proof.
  destruct m as [a|a|v]; cbn [run_mutation]; intros H.
  - destruct (deposit_cases _ _ H) as [(_ & d & s & _ & _ & Hn & ->)|(e & He & _)];
      [now split | discriminate].
  - destruct (withdraw_cases _ _ H) as [(_ & d & s & _ & _ & _ & Hn & ->)|(e & He & _)];
      [now split | discriminate].
  - destruct (balance_setter_cases _ _ H) as [(_ & d & _ & Hn & ->)|(e & He & _)];
      [now split | discriminate].
Qed.

(** X7.  A [deposit], a [withdraw] or an assignment to [balance] that raises,
    whatever the exception, leaves the wallet exactly as it was. *)
Theorem failed_mutation_keeps_wallet :
  forall (m : mutation) (w w' : Wallet) (e : exn),
    run_mutation m w = (Raise e, w') -> w' = w.
Proof.
  intros [a|a|v] w w' e; cbn [run_mutation].
  - apply deposit_failure_keeps.
  - apply withdraw_failure_keeps.
  - apply balance_setter_failure_keeps.
Qed.

Lemma failed_mutation_keeps_wallet_witness :
  run_mutation (Withdraws (VFloat (PyFloat.literal 1 1))) (btc 10)
  = (Raise (ValueError (py "Недостаточно средств для снятия")), btc 10).
Proof.
  destruct (run_mutation (Withdraws (VFloat (PyFloat.literal 1 1))) (btc 10))
    as [[[]|e] w'] eqn:E.
  - vm_compute in E. discriminate.
  - rewrite (failed_mutation_keeps_wallet _ _ E).
    vm_compute in E. injection E as E1 _. rewrite <- E1. reflexivity.
Defined.

(** X8.  Any sequence of successful deposits, withdrawals and assignments
    keeps the currency code, and leaves a balance that is not negative as
    soon as the sequence is not empty or the balance was not negative at the
    start. *)
Theorem successful_mutations_keep_invariant :
  forall (ms : list mutation) (w w' : Wallet),
    run_all ms w = Some w' ->
    currency_code w' = currency_code w
    /\ (nonneg (balance w) = true \/ ms <> [] -> nonneg (balance w') = true).
Proof.
  induction ms as [|m ms IH]; intros w w'; cbn [run_all].
  - intros H. injection H as <-. split; [reflexivity|].
    intros [H|H]; [exact H | now elim H].
  - destruct (run_mutation m w) as [[[]|e] w1] eqn:Hm; [|discriminate].
    intros H. destruct (run_mutation_ok _ _ Hm) as [Hc Hn].
    destruct (IH _ _ H) as [Hc' Hn']. split; [congruence | auto].
Qed.

Lemma successful_mutations_keep_invariant_witness :
  run_all [Deposits (VFloat (PyFloat.literal 1 10)); Withdraws (VFloat (PyFloat.literal 5 100))]
          (btc 5) = Some (btc 10)
  /\ nonneg (balance (btc 10)) = true.
Proof.
  assert (H : run_all [Deposits (VFloat (PyFloat.literal 1 10));
                       Withdraws (VFloat (PyFloat.literal 5 100))] (btc 5) = Some (btc 10))
    by (vm_compute; reflexivity).
  split; [exact H|].
  destruct (successful_mutations_keep_invariant _ _ H) as [_ Hn].
  apply Hn. left. reflexivity.
Defined.

(** X9.  [deposit] and [withdraw] look at their argument before they look at
    the balance: a value that is neither an [int] nor a [float] (a [str], a
    [Decimal], [None]) raises [TypeError], a number that is zero or negative
    raises [ValueError], and a NaN passes both checks and fails with
    [decimal.InvalidOperation]; in each case the wallet is as it was. *)
Theorem amount_checks_come_first :
  forall (amount : value) (w : Wallet),
    (Num.is_number amount = false ->
       deposit amount w = (Raise TypeError, w)
       /\ withdraw amount w = (Raise TypeError, w))
    /\ (Num.is_number amount = true -> Num.le_zero amount = Ok true ->
          deposit amount w
          = (Raise (ValueError (py "Сумма пополнения должна быть положительной")), w)
          /\ withdraw amount w
             = (Raise (ValueError (py "Сумма снятия должна быть положительной")), w))
    /\ deposit (VFloat S754_nan) w = (Raise InvalidOperation, w)
    /\ withdraw (VFloat S754_nan) w = (Raise InvalidOperation, w).
Proof.
  intros amount w. split; [|split; [|split]].
  - intros Hn. unfold deposit, withdraw. rewrite Hn. split; reflexivity.
  - intros Hn Hz. unfold deposit, withdraw, bind, lift. rewrite Hn, Hz. split; reflexivity.
  - unfold deposit, bind, lift, get. cbn [Num.is_number negb Num.le_zero Num.decimal_of_str of_float_repr].
    destruct (balance w) as [c e|s|[|]]; cbn [Decimal.add]; try reflexivity;
      rewrite balance_setter_dec; reflexivity.
  - unfold withdraw, bind, lift, get. reflexivity.
Qed.

(** X10.  [deposit] accepts an infinite amount: on a wallet with a finite
    balance, [deposit(float('inf'))] succeeds and leaves the balance at
    [Infinity], from which every positive [int] can be withdrawn without the
    balance changing. *)
Theorem infinite_deposit_is_accepted :
  forall (w : Wallet) (c e : Z),
    balance w = DFin c e ->
    let rich := mkWallet (currency_code w) (DInf false) in
    deposit (VFloat (S754_infinity false)) w = (Ok tt, rich)
    /\ forall z, 0 < z -> ndigits z <= 4300 -> withdraw (VInt z) rich = (Ok tt, rich).
Proof.
  intros w c e Hb rich. split.
  - unfold deposit, bind, lift, get.
    cbn [Num.is_number negb Num.le_zero Num.decimal_of_str of_float_repr].
    rewrite Hb. cbn [Decimal.add]. rewrite balance_setter_dec. reflexivity.
  - intros z Hz Hd. unfold withdraw, bind, lift, get.
    cbn [Num.is_number negb Num.le_zero Num.decimal_of_str].
    destruct (Z.leb_spec z 0) as [|_]; [lia|].
    destruct (Z.ltb_spec 4300 (ndigits z)) as [|_]; [lia|].
    unfold rich at 1 2. cbn [balance _balance Num.dec_lt Num.exact Decimal.exact rbind
                              Ext.ltb Ext.compare Decimal.sub Decimal.neg Decimal.add].
    rewrite balance_setter_dec. reflexivity.
Qed.

Lemma infinite_deposit_is_accepted_witness :
  deposit (VFloat (S754_infinity false)) (btc 10)
  = (Ok tt, mkWallet (VStr (py "BTC")) (DInf false))
  /\ withdraw (VInt 1000000) (mkWallet (VStr (py "BTC")) (DInf false))
     = (Ok tt, mkWallet (VStr (py "BTC")) (DInf false)).
Proof.
  destruct (@infinite_deposit_is_accepted (btc 10) 10 (-2) eq_refl) as [H1 H2].
  split; [exact H1|]. apply H2; [lia | vm_compute; discriminate].
Defined.

(** X11.  Depositing a positive [int] and withdrawing it again gives back
    the wallet as it was, balance digit for digit, as long as the sum in
    between fits the 28 digits of the decimal context. *)
Theorem deposit_then_withdraw_restores :
  forall (w : Wallet) (c e z : Z),
    w = mkWallet (currency_code w) (DFin c e) ->
    0 <= c -> Etiny <= e <= 0 -> 0 < z ->
    ndigits (c + z * 10 ^ (- e)) <= 28 ->
    let w1 := mkWallet (currency_code w) (DFin (c + z * 10 ^ (- e)) e) in
    deposit (VInt z) w = (Ok tt, w1) /\ withdraw (VInt z) w1 = (Ok tt, w).
Proof.
  intros w c e z Hw Hc He Hz Hs w1.
  assert (HE : Etiny = -1000026 /\ Etop = 999972) by (split; reflexivity).
  destruct HE as (HE1 & HE2).
  assert (Hp : 0 < 10 ^ (- e)) by (apply Z.pow_pos_nonneg; lia).
  assert (Hzs : z <= c + z * 10 ^ (- e)) by nia.
  assert (Hdz : ndigits z <= 28)
    by (etransitivity; [apply (@ndigits_mono z (c + z * 10 ^ (- e))); lia | exact Hs]).
  assert (Hdc : ndigits c <= 28)
    by (etransitivity; [apply (@ndigits_mono c (c + z * 10 ^ (- e))); nia | exact Hs]).
  assert (Hbal : balance w = DFin c e) by (rewrite Hw; reflexivity).
  assert (Hmin : Z.min e 0 = e) by lia.
  split.
  - unfold deposit, bind, lift, get.
    cbn [Num.is_number negb Num.le_zero Num.decimal_of_str].
    destruct (Z.leb_spec z 0) as [|_]; [lia|].
    destruct (Z.ltb_spec 4300 (ndigits z)) as [|_]; [lia|].
    rewrite Hbal. cbn [Decimal.add]. rewrite Hmin.
    replace (e - e) with 0 by lia. replace (0 - e) with (- e) by lia.
    rewrite Z.pow_0_r, Z.mul_1_r.
    rewrite fix_ctx_fits by (unfold prec; lia).
    rewrite balance_setter_dec. cbn [nonneg].
    destruct (Z.leb_spec 0 (c + z * 10 ^ (- e))) as [_|]; [reflexivity | lia].
  - unfold withdraw, bind, lift, get.
    cbn [Num.is_number negb Num.le_zero Num.decimal_of_str].
    destruct (Z.leb_spec z 0) as [|_]; [lia|].
    destruct (Z.ltb_spec 4300 (ndigits z)) as [|_]; [lia|].
    unfold w1 at 1 2. cbn [balance _balance currency_code].
    assert (Hlt : Num.dec_lt (DFin (c + z * 10 ^ (- e)) e) (VInt z) = Ok false).
    { unfold Num.dec_lt. cbn [Num.exact Decimal.exact rbind].
      unfold Ext.ltb, Ext.compare, Ext.scaled, Qcompare, inject_Z.
      destruct (Z.leb_spec 0 e) as [H0|H0]; cbn [Qnum Qden].
      - replace e with 0 in * by lia. change (10 ^ (- 0)) with 1 in *.
        change (10 ^ 0) with 1.
        destruct (Z.compare_spec ((c + z * 1) * 1 * 1) (z * 1)) as [| |]; try reflexivity; lia.
      - rewrite Z2Pos.id by lia.
        destruct (Z.compare_spec ((c + z * 10 ^ (- e)) * 1) (z * 10 ^ (- e))) as [| |];
          try reflexivity; lia. }
    rewrite Hlt. cbn [Decimal.sub Decimal.neg Decimal.add]. rewrite Hmin.
    replace (e - e) with 0 by lia. replace (0 - e) with (- e) by lia.
    rewrite Z.pow_0_r, Z.mul_1_r.
    replace (c + z * 10 ^ (- e) + - z * 10 ^ (- e)) with c by lia.
    rewrite fix_ctx_fits by (unfold prec; lia).
    rewrite balance_setter_dec. cbn [nonneg].
    destruct (Z.leb_spec 0 c) as [_|]; [|lia].
    subst w1. cbn [currency_code]. rewrite <- Hw. reflexivity.
Qed.

Lemma deposit_then_withdraw_restores_witness :
  deposit (VInt 50) (btc 5) = (Ok tt, btc 5005)
  /\ withdraw (VInt 50) (btc 5005) = (Ok tt, btc 5).
Proof.
  apply (@deposit_then_withdraw_restores (btc 5) 5 (-2) 50);
    [reflexivity | lia | vm_compute; split; discriminate | lia | vm_compute; discriminate].
Defined.

(** Beyond 28 digits the sum is rounded, and the small change is lost. *)
Lemma deposit_then_withdraw_loses :
  let big := 10 ^ 28 in
  deposit (VInt big) (btc 5) = (Ok tt, mkWallet (VStr (py "BTC")) (DFin (10 ^ 27) 1))
  /\ withdraw (VInt big) (mkWallet (VStr (py "BTC")) (DFin (10 ^ 27) 1))
     = (Ok tt, mkWallet (VStr (py "BTC")) (DFin 0 0)).
Proof. split; vm_compute; reflexivity. Qed.

(** X12.  A wallet created with a positive finite [float] balance [x]
    holds [Decimal(repr(x))], and [withdraw(x)] compares [x] itself, exactly,
    with that balance: when [x] is above its own [repr] the withdrawal of the
    whole balance is refused for insufficient funds, otherwise it succeeds
    and leaves a zero balance. *)
Theorem withdraw_initial_float :
  forall (code : value) (m : positive) (e : Z),
    let x := VFloat (S754_finite false m e) in
    exists (w : Wallet) (c k : Z),
      Wallet.init code x = Ok w
      /\ w = mkWallet code (DFin c k)
      /\ ((Num.dec_lt (balance w) x = Ok true
           /\ withdraw x w = (Raise (ValueError (py "Недостаточно средств для снятия")), w))
          \/ (Num.dec_lt (balance w) x = Ok false
              /\ withdraw x w = (Ok tt, mkWallet code (DFin 0 (Z.min (Z.max k Etiny) Emax))))).
Proof.
  intros code m e x.
  assert (Hr : exists c k, of_float_repr (S754_finite false m e) = DFin c k).
  { cbn [of_float_repr]. destruct (PyFloat.repr_digits m e) as [d k].
    destruct ((-4 <? k + ndigits d) && (k + ndigits d <=? 16) && (0 <=? k)); eauto. }
  destruct Hr as (c & k & Hr).
  exists (mkWallet code (DFin c k)), c, k.
  split; [unfold Wallet.init, x; cbn [Num.decimal_of_str rbind]; now rewrite Hr|].
  split; [reflexivity|].
  cbn [balance _balance].
  assert (Hlt : exists b, Num.dec_lt (DFin c k) x = Ok b) by (now eexists).
  destruct Hlt as (b & Hlt).
  unfold withdraw, bind, lift, get, x in *.
  cbn [Num.is_number negb Num.le_zero Num.decimal_of_str balance _balance] in *.
  rewrite Hlt, Hr. destruct b; [left; split; reflexivity|right; split; [reflexivity|]].
  cbn [Decimal.sub Decimal.neg Decimal.add]. rewrite Z.min_id, Z.sub_diag, Z.pow_0_r.
  replace (c * 1 + - c * 1) with 0 by lia.
  unfold fix_ctx. cbn [Z.eqb]. rewrite balance_setter_dec. reflexivity.
Qed.

(** Both cases occur: [0.1] is above [Decimal('0.1')], [0.5] is
    [Decimal('0.5')]. *)
Lemma withdraw_initial_float_examples :
  let tenth := VFloat (PyFloat.literal 1 10) in
  let half := VFloat (PyFloat.literal 1 2) in
  Wallet.init (VStr (py "USD")) tenth = Ok (mkWallet (VStr (py "USD")) (DFin 1 (-1)))
  /\ withdraw tenth (mkWallet (VStr (py "USD")) (DFin 1 (-1)))
     = (Raise (ValueError (py "Недостаточно средств для снятия")),
        mkWallet (VStr (py "USD")) (DFin 1 (-1)))
  /\ Wallet.init (VStr (py "USD")) half = Ok (mkWallet (VStr (py "USD")) (DFin 5 (-1)))
  /\ withdraw half (mkWallet (VStr (py "USD")) (DFin 5 (-1)))
     = (Ok tt, mkWallet (VStr (py "USD")) (DFin 0 (-1))).
Proof. repeat split; vm_compute; reflexivity. Qed.

(** X13.  The setter's own message for a value that is no number is raised
    for exactly one kind of value: an [int] of more than 4300 digits, whose
    [str] raises [ValueError].  Every other value that [Decimal] refuses
    fails with [decimal.InvalidOperation], which the [except] clause does
    not catch. *)
Theorem number_message_iff_long_int :
  forall (v : value) (w w' : Wallet),
    balance_setter v w = (Raise (ValueError (py "Баланс должен быть числом")), w')
    <-> w' = w /\ exists z, v = VInt z /\ 4300 < ndigits z.
Proof.
  intros v w w'. split.
  - intros H. split.
    + exact (balance_setter_failure_keeps _ _ H).
    + exact (must_be_number_only_for_long_int _ _ H).
  - intros (-> & z & -> & Hz).
    unfold balance_setter, bind, lift. cbn [Num.decimal_of_str].
    destruct (Z.ltb_spec 4300 (ndigits z)) as [_|]; [reflexivity | lia].
Qed.

End WalletLaws.

(** ** Portfolio *)

Module PortfolioLaws.
Import Decimal Wallet Portfolio WalletSpec PortfolioSpec LawsSpec WalletProps PortfolioProps.

Lemma dict_set_twice {V} (d : dict V) k a b :
  dict_set (dict_set d k a) k b = dict_set d k b.
Proof.
  induction d as [|[k0 v0] d IH]; cbn [dict_set].
  - now rewrite pystr_eqb_refl.
  - destruct (pystr_eqb k0 k) eqn:E; cbn [dict_set]; rewrite E; [reflexivity|].
    now rewrite IH.
Qed.

Lemma dict_get_app_l {V} (d d' : dict V) k v :
  dict_get d k = Some v -> dict_get (d ++ d') k = Some v.
Proof.
  induction d as [|[k0 v0] d IH]; cbn [dict_get app]; [discriminate|].
  destruct (pystr_eqb k0 k); auto.
Qed.

Lemma dict_get_absent {V} (d : dict V) k :
  dict_get d k = None -> ~ In k (List.map fst d).
Proof.
  induction d as [|[k0 v0] d IH]; cbn [dict_get List.map fst In]; [tauto|].
  destruct (pystr_eqb k0 k) eqn:E; [discriminate|].
  intros H [->|Hin]; [now rewrite pystr_eqb_refl in E | now apply IH].
Qed.

Lemma dict_in_keys {V} (d : dict V) k : dict_in d k = true -> In k (List.map fst d).
Proof.
  unfold dict_in. destruct (dict_get d k) as [v|] eqn:H; [|discriminate].
  intros _. apply dict_get_In in H. now apply (in_map fst) in H.
Qed.

Lemma codes_set_present p k w w' :
  get_wallet k p = Some w -> codes (set_wallet p k w') = codes p.
Proof.
  unfold get_wallet, codes, set_wallet. cbn [_wallets].
  induction (_wallets p) as [|[k0 v0] d IH]; cbn [dict_get dict_set]; [discriminate|].
  destruct (pystr_eqb k0 k); intros H; cbn [List.map fst]; [reflexivity|].
  now rewrite IH.
Qed.

Lemma set_wallet_twice p k a b : set_wallet (set_wallet p k a) k b = set_wallet p k b.
Proof. unfold set_wallet. cbn [_user_id _wallets]. now rewrite dict_set_twice. Qed.

(** A method call keeps the wallet's code, and a balance that was not
    negative is not negative afterwards, whatever the outcome. *)
Lemma mutation_keeps m w :
  currency_code (snd (run_mutation m w)) = currency_code w
  /\ (nonneg (balance w) = true -> nonneg (balance (snd (run_mutation m w))) = true).
Proof.
  destruct (run_mutation m w) as [[[]|e] w'] eqn:H; cbn [snd].
  - destruct (WalletLaws.run_mutation_ok _ _ H). auto.
  - assert (w' = w) as ->; [|auto].
    destruct m as [a|a|v]; cbn [run_mutation] in H.
    + exact (deposit_failure_keeps _ _ H).
    + exact (withdraw_failure_keeps _ _ H).
    + exact (balance_setter_failure_keeps _ _ H).
Qed.

Lemma on_wallet_touched k (m : mutation) (p : Portfolio) :
  touched p (snd (on_wallet k (run_mutation m) p)).
Proof.
  destruct (get_wallet k p) as [w|] eqn:Hk.
  - rewrite (on_wallet_found _ _ _ Hk). cbn [snd]. right. now exists k, w, m.
  - left. unfold on_wallet. unfold get_wallet in Hk. now rewrite Hk.
Qed.

(** How far [buy_currency] gets. *)
Lemma buy_currency_trace amount f t p r p' :
  buy_currency amount f t p = (r, p') ->
  (p' = p /\ exists e, r = Raise e)
  \/ exists w wt w1,
       get_wallet f p = Some w /\ get_wallet t p = Some wt
       /\ withdraw amount w = (Ok tt, w1)
       /\ ((exists e, converted amount f t = Raise e /\ r = Raise e
                      /\ p' = set_wallet p f w1)
           \/ exists c, converted amount f t = Ok c
                        /\ on_wallet t (deposit c) (set_wallet p f w1) = (r, p')).
Proof.
  unfold buy_currency. unfold bind at 1, lift at 1.
  destruct (Num.le_zero amount) as [[|]|e0];
    try (intros H; injection H as <- <-; left; split; [reflexivity | eexists; reflexivity]).
  unfold bind at 1, get.
  destruct (get_wallet f p) as [w|] eqn:Hf;
    [|intros H; injection H as <- <-; left; split; [reflexivity | eexists; reflexivity]].
  destruct (get_wallet t p) as [wt|] eqn:Ht;
    [|intros H; injection H as <- <-; left; split; [reflexivity | eexists; reflexivity]].
  unfold bind at 1. rewrite (on_wallet_found _ _ _ Hf).
  destruct (withdraw amount w) as [[[]|e0] w1] eqn:Hw; cbn [fst snd].
  - intros H. right. exists w, wt, w1.
    split; [reflexivity|]. split; [reflexivity|]. split; [exact Hw|].
    revert H. unfold converted, bind, lift.
    destruct (getitem EXCHANGE_RATES f) as [rf|e1]; cbn [rbind];
      [|intros H; injection H as <- <-; left; eexists; repeat split].
    destruct (getitem EXCHANGE_RATES t) as [rt|e1]; cbn [rbind];
      [|intros H; injection H as <- <-; left; eexists; repeat split].
    destruct (Num.mul_float amount rf) as [x|e1]; cbn [rbind];
      [|intros H; injection H as <- <-; left; eexists; repeat split].
    destruct (Num.div_float x rt) as [c|e1];
      [|intros H; injection H as <- <-; left; eexists; repeat split].
    intros H. right. exists c. now split.
  - apply withdraw_failure_keeps in Hw as ->. rewrite (set_wallet_same _ _ Hf).
    intros H; injection H as <- <-. left. split; [reflexivity | eexists; reflexivity].
Qed.

(** How far [sell_currency] gets. *)
Lemma sell_currency_touched amount f t p :
  touched p (snd (sell_currency amount f t p)).
Proof.
  unfold sell_currency. unfold bind at 1, lift at 1.
  destruct (Num.le_zero amount) as [[|]|e0]; try (now left).
  unfold bind at 1, get.
  destruct (get_wallet f p) as [w|] eqn:Hf; [|now left].
  destruct (get_wallet t p) as [wt|] eqn:Ht; [|now left].
  unfold bind at 1, lift at 1.
  destruct (Num.dec_lt (balance w) amount) as [[|]|e0]; try (now left).
  unfold bind at 1. rewrite (on_wallet_found _ _ _ Hf).
  assert (Ht' : touched p (set_wallet p f (snd (withdraw amount w))))
    by (right; now exists f, w, (Withdraws amount)).
  destruct (withdraw amount w) as [[[]|e0] w1]; cbn [fst snd] in *; [|exact Ht'].
  unfold bind, lift. now destruct (getitem EXCHANGE_RATES f).
Qed.

Lemma buy_currency_touched amount f t p :
  exists p1, touched p p1 /\ touched p1 (snd (buy_currency amount f t p)).
Proof.
  destruct (buy_currency amount f t p) as [r p'] eqn:H. cbn [snd].
  destruct (buy_currency_trace _ _ _ _ H)
    as [[-> _]|(w & wt & w1 & Hf & Ht & Hw & [(e & _ & _ & ->)|(c & _ & Hd)])].
  - exists p. split; now left.
  - exists (set_wallet p f w1). split; [|now left].
    right. exists f, w, (Withdraws amount). cbn [run_mutation]. now rewrite Hw.
  - exists (set_wallet p f w1). split.
    + right. exists f, w, (Withdraws amount). cbn [run_mutation]. now rewrite Hw.
    + replace p' with (snd (on_wallet t (run_mutation (Deposits c)) (set_wallet p f w1)))
        by (cbn [run_mutation]; now rewrite Hd).
      apply on_wallet_touched.
Qed.

Lemma extends_refl p : extends p p.
Proof.
  split; [reflexivity|]. split; [exists []; now rewrite app_nil_r|]. eauto.
Qed.

Lemma extends_trans p q r : extends p q -> extends q r -> extends p r.
Proof.
  intros (U1 & (m1 & C1) & G1) (U2 & (m2 & C2) & G2).
  split; [congruence|]. split.
  - exists (m1 ++ m2). now rewrite C2, C1, app_assoc.
  - intros k w H. destruct (G1 _ _ H) as (w1 & H1 & E1).
    destruct (G2 _ _ H1) as (w2 & H2 & E2). exists w2. split; [exact H2 | congruence].
Qed.

Lemma touched_extends p p' : touched p p' -> extends p p'.
Proof.
  intros [->|(k & w & m & Hk & ->)]; [apply extends_refl|].
  destruct (mutation_keeps m w) as [Hc _].
  split; [reflexivity|]. split.
  - exists []. now rewrite app_nil_r, (@codes_set_present _ _ _ _ Hk).
  - intros k0 w0 H0. destruct (list_eq_dec N.eq_dec k0 k) as [->|Hne].
    + rewrite get_set_wallet_same. eexists. split; [reflexivity|]. congruence.
    + rewrite get_set_wallet_other by exact Hne. eauto.
Qed.

Lemma inv_nonneg p k w : inv p -> get_wallet k p = Some w -> nonneg (balance w) = true.
Proof.
  intros (_ & _ & Hn) Hk. apply dict_get_In in Hk.
  unfold nonneg_balances in Hn. rewrite Forall_forall in Hn. exact (Hn _ Hk).
Qed.

Lemma touched_inv p p' : inv p -> touched p p' -> inv p'.
Proof.
  intros Hi [->|(k & w & m & Hk & ->)]; [exact Hi|].
  destruct (mutation_keeps m w) as [Hc Hn].
  specialize (Hn (@inv_nonneg _ _ _ Hi Hk)).
  destruct Hi as (Hwf & Hnd & Hnn). split; [|split].
  - exact (@wf_set_wallet _ _ _ _ Hwf Hk Hc).
  - now rewrite (@codes_set_present _ _ _ _ Hk).
  - unfold nonneg_balances, set_wallet. cbn [_wallets].
    apply Forall_dict_set; [exact Hnn | exact Hn | intros; exact Hn].
Qed.

Lemma run_operation_steps o p :
  (exists p1, touched p p1 /\ touched p1 (snd (run_operation o p)))
  \/ exists code, o = Adds code
       /\ dict_get (_wallets p) code = None /\ dict_in EXCHANGE_RATES code = true
       /\ snd (run_operation o p)
          = mkPortfolio (_user_id p)
              (_wallets p ++ [(code, mkWallet (VStr code) (DFin 0 (-1)))]).
Proof.
  destruct o as [code|amount f t|amount f t|code m]; cbn [run_operation].
  - rewrite add_currency_cases.
    destruct (dict_in (_wallets p) code) eqn:Hin;
      [left; exists p; split; now left|].
    unfold dict_in in Hin.
    destruct (dict_get (_wallets p) code) eqn:Hg; [discriminate|].
    destruct (dict_in EXCHANGE_RATES code) eqn:Hr;
      [|left; exists p; split; now left].
    right. exists code. split; [reflexivity|]. split; [exact Hg|]. split; [exact Hr | reflexivity].
  - left. apply buy_currency_touched.
  - left. exists p. split; [now left | apply sell_currency_touched].
  - left. exists p. split; [now left|].
    destruct (get_wallet code p); [apply on_wallet_touched | now left].
Qed.

Lemma run_operation_extends o p : extends p (snd (run_operation o p)).
Proof.
  destruct (run_operation_steps o p) as [(p1 & H1 & H2)|(code & _ & Hg & _ & ->)].
  - eapply extends_trans; apply touched_extends; eassumption.
  - split; [reflexivity|]. split.
    + exists [code]. unfold codes. cbn [_wallets]. now rewrite map_app.
    + intros k w H. exists w. split; [|reflexivity].
      unfold get_wallet in *. cbn [_wallets]. now apply dict_get_app_l.
Qed.

Lemma run_operation_inv o p : inv p -> inv (snd (run_operation o p)).
Proof.
  intros Hi.
  destruct (run_operation_steps o p) as [(p1 & H1 & H2)|(code & _ & Hg & Hr & ->)].
  - eauto using touched_inv.
  - destruct Hi as (Hwf & Hnd & Hnn). split; [|split].
    + unfold wf. cbn [_wallets]. apply Forall_app. split; [exact Hwf|].
      constructor; [now split | constructor].
    + unfold codes. cbn [_wallets]. rewrite map_app. cbn [List.map fst].
      assert (Hadd : Add code (List.map fst (_wallets p)) (List.map fst (_wallets p) ++ [code]))
        by (rewrite <- (app_nil_r (List.map fst (_wallets p))) at 1; apply Add_app).
      apply (NoDup_Add Hadd). split; [exact Hnd | now apply dict_get_absent].
    + unfold nonneg_balances. cbn [_wallets]. apply Forall_app. split; [exact Hnn|].
      constructor; [reflexivity | constructor].
Qed.

Lemma inv_init uid : inv (init uid).
Proof. repeat split; constructor. Qed.

Lemma run_operations_inv os : forall p, inv p -> inv (run_operations os p).
Proof.
  induction os as [|o os IH]; intros p Hi; cbn [run_operations]; [exact Hi|].
  apply IH. now apply run_operation_inv.
Qed.

Lemma inv_codes p : inv p -> incl (codes p) table_codes.
Proof.
  intros (Hwf & _) k Hk. unfold codes in Hk. apply in_map_iff in Hk as ([k0 w] & <- & Hin).
  unfold wf in Hwf. rewrite Forall_forall in Hwf. destruct (Hwf _ Hin) as [_ Hr].
  now apply dict_in_keys.
Qed.

(** X15.  Whatever sequence of [add_currency], [buy_currency],
    [sell_currency] and wallet method calls is run on a portfolio, and
    whichever of them raise, the user id stays, no wallet is removed or
    moved, every wallet keeps its currency code, and new wallets come after
    the old ones. *)
Theorem operations_extend_portfolio :
  forall (os : list operation) (p : Portfolio), extends p (run_operations os p).
Proof.
  induction os as [|o os IH]; intros p; cbn [run_operations].
  - apply extends_refl.
  - eapply extends_trans; [apply run_operation_extends | apply IH].
Qed.

(** X16.  Every portfolio reached from [Portfolio(user_id)] by the methods
    of the two classes, failed calls included, holds each wallet under the
    wallet's own currency code, a code of [EXCHANGE_RATES], holds no code
    twice and no negative balance, and so holds at most four wallets. *)
Theorem reachable_portfolios_are_sound :
  forall (uid : value) (os : list operation),
    let p := run_operations os (init uid) in
    wf p /\ NoDup (codes p) /\ nonneg_balances p
    /\ incl (codes p) table_codes
    /\ (List.length (_wallets p) <= 4)%nat.
Proof.
  intros uid os p.
  assert (Hi : inv p) by (apply run_operations_inv, inv_init).
  assert (Hc := inv_codes Hi).
  destruct Hi as (Hwf & Hnd & Hnn).
  repeat (split; [assumption|]).
  replace (List.length (_wallets p)) with (List.length (codes p))
    by (unfold codes; apply length_map).
  exact (NoDup_incl_length Hnd Hc).
Qed.

(** X17.  A [buy_currency] that raises leaves the portfolio in one of two
    states: as it was, or with the amount withdrawn from the source wallet
    and nothing deposited anywhere. *)
Theorem failed_buy_states :
  forall (p p' : Portfolio) (amount : value) (f t : pystr) (e : exn),
    buy_currency amount f t p = (Raise e, p') ->
    p' = p
    \/ exists w w1,
         get_wallet f p = Some w
         /\ withdraw amount w = (Ok tt, w1)
         /\ p' = set_wallet p f w1.
Proof.
  intros p p' amount f t e H.
  destruct (buy_currency_trace _ _ _ _ H)
    as [[-> _]|(w & wt & w1 & Hf & Ht & Hw & [(e1 & _ & _ & ->)|(c & _ & Hd)])].
  - now left.
  - right. now exists w, w1.
  - right. exists w, w1. split; [exact Hf|]. split; [exact Hw|].
    destruct (get_wallet t (set_wallet p f w1)) as [wt1|] eqn:Ht1.
    + rewrite (on_wallet_found _ _ _ Ht1) in Hd.
      destruct (deposit c wt1) as [r2 w2] eqn:Hdep. cbn [fst snd] in Hd.
      injection Hd as -> <-.
      apply deposit_failure_keeps in Hdep as ->.
      apply set_wallet_same, Ht1.
    + unfold on_wallet in Hd. unfold get_wallet in Ht1. rewrite Ht1 in Hd.
      now injection Hd as _ <-.
Qed.

Lemma failed_buy_states_witness :
  usd_btc 0 0 = usd_btc (10 ^ 27) 373
  \/ exists w w1,
       get_wallet (py "USD") (usd_btc (10 ^ 27) 373) = Some w
       /\ withdraw (VInt (10 ^ 400)) w = (Ok tt, w1)
       /\ usd_btc 0 0 = set_wallet (usd_btc (10 ^ 27) 373) (py "USD") w1.
Proof.
  exact (@failed_buy_states _ _ _ _ _ _ buy_currency_overflows_after_withdrawal).
Defined.

(** X18.  With the same code on both sides, [buy_currency] is a withdrawal
    followed by a deposit of the converted amount on one and the same
    wallet: the outcome is that of the deposit, and the wallet is left as
    the deposit leaves the wallet that the withdrawal left. *)
Theorem buy_currency_one_wallet :
  forall (p : Portfolio) (amount : value) (k : pystr) (w w1 : Wallet) (c : value),
    get_wallet k p = Some w ->
    withdraw amount w = (Ok tt, w1) ->
    converted amount k k = Ok c ->
    buy_currency amount k k p
    = (fst (deposit c w1), set_wallet p k (snd (deposit c w1))).
Proof.
  intros p amount k w w1 c Hk Hw Hc.
  rewrite (@buy_steps _ _ _ _ _ _ _ _ Hk Hk Hw Hc).
  rewrite (on_wallet_found _ _ _ (get_set_wallet_same p k w1)).
  now rewrite set_wallet_twice.
Qed.

Lemma buy_currency_one_wallet_witness :
  buy_currency (VInt 50) (py "USD") (py "USD") (usd_eur 1000 0 (-1))
  = (Ok tt, usd_eur 1000 0 (-1)).
Proof.
  assert (Hw : withdraw (VInt 50) (usd 1000) = (Ok tt, usd 500)) by (vm_compute; reflexivity).
  assert (Hc : converted (VInt 50) (py "USD") (py "USD") = Ok (VFloat (PyFloat.literal 50 1)))
    by (vm_compute; reflexivity).
  assert (Hk : get_wallet (py "USD") (usd_eur 1000 0 (-1)) = Some (usd 1000)) by reflexivity.
  rewrite (@buy_currency_one_wallet _ _ _ _ _ _ Hk Hw Hc).
  vm_compute. reflexivity.
Defined.

(** The loop adds nothing it can return: a wallet is skipped, or the product
    of its [Decimal] balance and a [float] rate raises. *)
Lemma total_loop_returns_start ws base t f :
  total_loop ws base t = Ok f -> f = t.
Proof.
  revert t. induction ws as [|w ws IH]; intros t; cbn [total_loop].
  - intros H. now injection H as <-.
  - destruct (rate_of (currency_code w)) as [[r|]|e]; cbn [rbind]; [|apply IH|discriminate].
    destruct (dict_get EXCHANGE_RATES base) as [b|]; [|apply IH].
    cbn [Num.mul_float rbind]. discriminate.
Qed.

(** X19.  [get_total_value] never changes the portfolio, and the only total
    it ever returns is [0.0]: a wallet whose code has a rate makes it raise,
    every other wallet is skipped. *)
Theorem get_total_value_returns_only_zero :
  forall (p p' : Portfolio) (base : pystr) (r : res spec_float),
    get_total_value base p = (r, p') ->
    p' = p /\ forall f, r = Ok f -> f = PyFloat.zero.
Proof.
  intros p p' base r. unfold get_total_value, bind, get, lift, raise.
  destruct (negb (dict_in EXCHANGE_RATES base)).
  - intros H. injection H as <- <-. split; [reflexivity | discriminate].
  - intros H. injection H as <- <-. split; [reflexivity|].
    intros f Hf. exact (total_loop_returns_start _ _ _ Hf).
Qed.

Lemma get_total_value_returns_only_zero_witness :
  let p := mkPortfolio (VInt 1) [(py "USD", mkWallet (VStr (py "GBP")) (DFin 5 0))] in
  get_total_value (py "USD") p = (Ok (S754_zero false), p).
Proof.
  cbv zeta.
  destruct (get_total_value (py "USD")
              (mkPortfolio (VInt 1) [(py "USD", mkWallet (VStr (py "GBP")) (DFin 5 0))]))
    as [r p'] eqn:H.
  destruct (get_total_value_returns_only_zero _ _ H) as [-> Hz].
  destruct r as [f|e].
  - now rewrite (Hz f eq_refl).
  - vm_compute in H. discriminate.
Defined.

End PortfolioLaws.
